(** * conflict_model / copro: sample-matrix assembly and evaluation pipeline

    A shallow embedding of the Python sources

      - copro/data.py                (Module [Data])
      - copro/machine_learning.py    (Module [MachineLearning])
      - copro/pipeline.py            (Module [Pipeline])
      - conflict_model/evaluation.py (Module [Evaluation])
      - scripts/runner.py            (Module [Runner])

    followed by the properties of these functions.

    Python values are modelled by the types of Module [Py]; a Python
    exception is the [Raise] branch of [result], and a name that a
    function body reads without binding it is looked up in the namespace
    of its module. [print] statements do not influence any returned
    value and are left out, except where the expression that is printed
    can itself raise. Floating-point numbers are modelled by rationals
    ([Q]); the two missing values of pandas ([NaN] and [None]) are
    constructors of their own.

    What the code calls in numpy, pandas, geopandas, xarray and
    scikit-learn, and in the modules copro/conflict.py and
    copro/variables.py, enters as records of functions ([conflict_py],
    [variables_py], [geo_libs], [sklearn]). Module [Conflict] gives
    copro/conflict.py as it is described, and Module [Fixture] a small
    world of three polygons on a line to run the code in. *)

From Stdlib Require Import ZArith QArith Qround List String Ascii Lia.
From stdpp Require Import base list strings pretty gmap.
Import ListNotations.

Local Open Scope string_scope.
Local Open Scope Z_scope.
Local Open Scope list_scope.

(* ===================================================================== *)
(** * Python values, exceptions and the configuration object             *)
(* ===================================================================== *)

Module Py.

(** The exceptions the modelled code can raise. [AssertionError] keeps
    the two lengths that the source formats into its message.
    [OSError] stands for the class: the subclass that opening a path
    raises (FileNotFoundError when nothing is there, IsADirectoryError
    when the path is a directory, and so on) is not told apart. *)
Inductive exn : Type :=
| NameError (name : string)
| TypeError (msg : string)
| ValueError (msg : string)
| AssertionError (msg : string) (l1 l2 : nat)
| Warning (msg : string)
| IndexError
| KeyError (key : string)
| ZeroDivisionError
| AttributeError (msg : string)
| NoSectionError (section : string)
| NoOptionError (section option : string)
| OSError (path : string)
| OverflowError (msg : string).

Inductive result (A : Type) : Type :=
| Ok (a : A)
| Raise (e : exn).
Arguments Ok {A} a.
Arguments Raise {A} e.

(** Sequencing: the first exception raised ends the computation. *)
Definition bind {A B} (m : result A) (f : A → result B) : result B :=
  match m with
  | Ok a => f a
  | Raise e => Raise e
  end.

Notation "'do' x <- m ; k" := (bind m (λ x, k))
  (at level 10, x name, m at level 100, k at level 200,
   format "'[v' 'do'  x  <-  m ;  '/' k ']'").
Notation "'do' ' p <- m ; k" := (bind m (λ x, match x with p => k end))
  (at level 10, p pattern, m at level 100, k at level 200,
   format "'[v' 'do'  ' p  <-  m ;  '/' k ']'").

(** [str(e)] for the exceptions whose text the claims talk about; of
    an OSError only the path that its text ends with. *)
Definition message (e : exn) : string :=
  match e with
  | NameError n => "name '" +:+ n +:+ "' is not defined"
  | TypeError m | ValueError m | Warning m | AssertionError m _ _
  | AttributeError m | OverflowError m => m
  | IndexError => "index out of range"
  | KeyError k => k
  | ZeroDivisionError => "division by zero"
  | NoSectionError s => "No section: '" +:+ s +:+ "'"
  | NoOptionError s o => "No option '" +:+ o +:+ "' in section: '" +:+ s +:+ "'"
  | OSError p => "'" +:+ p +:+ "'"
  end.

(** The TypeError of a call that passes [n] positional arguments, and
    no keyword, to a def with more than [n] parameters, none of which
    has a default value. Python raises it when it binds the
    arguments, before the body of the def runs. *)
Definition quoted (s : string) : string := "'" +:+ s +:+ "'".

Fixpoint names_and (names : list string) : string :=
  match names with
  | [] => ""
  | [c] => "and " +:+ quoted c
  | a :: rest => quoted a +:+ ", " +:+ names_and rest
  end.

Definition names_text (names : list string) : string :=
  match names with
  | [] => ""
  | [a] => quoted a
  | [a; b] => quoted a +:+ " and " +:+ quoted b
  | _ => names_and names
  end.

Definition missing_positional (fname : string) (params : list string)
    (n : nat) : exn :=
  let missing := drop n params in
  TypeError
    (fname +:+ "() missing " +:+ pretty (length missing)
     +:+ " required positional argument"
     +:+ (if (length missing =? 1)%nat then "" else "s")
     +:+ ": " +:+ names_text missing).

(** [needle in haystack] on strings. *)
Fixpoint contains (needle haystack : string) : bool :=
  String.prefix needle haystack ||
  match haystack with
  | EmptyString => false
  | String _ rest => contains needle rest
  end.

(** One entry of a pandas Series or of a numpy object array. *)
Inductive cell (Geom : Type) : Type :=
| NaN
| None_
| Float (q : Q)
| Int (z : Z)
| Bool (b : bool)
| Geometry (g : Geom).
Arguments NaN {Geom}.
Arguments None_ {Geom}.
Arguments Float {Geom} q.
Arguments Int {Geom} z.
Arguments Bool {Geom} b.
Arguments Geometry {Geom} g.

(** [pd.isna] on one entry. *)
Definition isna {Geom} (c : cell Geom) : bool :=
  match c with
  | NaN | None_ => true
  | _ => false
  end.

(** [int(x)]: truncation towards zero on floats, 0/1 on booleans. A
    Python integer has no bound. *)
Definition Qtruncate (q : Q) : Z :=
  if Qle_bool 0 q then Qfloor q else Qceiling q.

Definition int_ {Geom} (c : cell Geom) : result Z :=
  match c with
  | Float q => Ok (Qtruncate q)
  | Int z => Ok z
  | Bool b => Ok (if b then 1 else 0)
  | NaN => Raise (ValueError "cannot convert float NaN to integer")
  | None_ | Geometry _ =>
      Raise (TypeError "int() argument must be a string, a bytes-like object or a number")
  end.

(** [a.astype(int)] on one entry of an object array: [int(x)], stored
    as a 64-bit integer. A value that does not fit raises. *)
Definition int64_min : Z := - 2 ^ 63.
Definition int64_max : Z := 2 ^ 63 - 1.

Definition to_int64 {Geom} (c : cell Geom) : result Z :=
  match int_ c with
  | Ok z =>
      if (int64_min <=? z) && (z <=? int64_max) then Ok z
      else Raise (OverflowError "Python int too large to convert to C long")
  | Raise e => Raise e
  end.

(** A two-dimensional numpy array: the second component of its shape
    and its rows. The number of columns is kept apart, since an array
    with no row still has columns. *)
Record ndarray (Geom : Type) : Type := mk_ndarray
  { ncols : nat;
    rows : list (list (cell Geom)) }.
Arguments mk_ndarray {Geom} ncols rows.
Arguments ncols {Geom} n.
Arguments rows {Geom} n.

Definition wf_ndarray {Geom} (a : ndarray Geom) : Prop :=
  Forall (λ r, length r = ncols a) (rows a).

(** [len(a)] *)
Definition len {Geom} (a : ndarray Geom) : nat := length (rows a).

(** The [ConfigParser] object, through the getters the code calls. *)
Record ConfigParser : Type :=
  { get : string → string → result string;
    getboolean : string → string → result bool;
    getint : string → string → result Z;
    getfloat : string → string → result Q;
    items : string → result (list (string * string)) }.

(** [for x in xs: acc = f(acc, x)] with exceptions. *)
Fixpoint for_each {A S} (f : S → A → result S) (xs : list A) (s : S)
  : result S :=
  match xs with
  | [] => Ok s
  | x :: xs' => do s' <- f s x; for_each f xs' s'
  end.

(** [[f(x) for x in xs]] with exceptions. *)
Fixpoint map_result {A B} (f : A → result B) (xs : list A)
  : result (list B) :=
  match xs with
  | [] => Ok []
  | x :: xs' => do y <- f x; do ys <- map_result f xs'; Ok (y :: ys)
  end.

(** [os.path.join] (POSIX): an absolute component discards what came
    before it. *)
Definition ends_with_slash (s : string) : bool :=
  match String.rev s with
  | String c _ => Ascii.eqb c "/"
  | EmptyString => false
  end.

Definition join2 (path b : string) : string :=
  if String.prefix "/" b then b
  else if (path =? "")%string || ends_with_slash path then path +:+ b
  else path +:+ "/" +:+ b.

Definition os_path_join (a : string) (ps : list string) : string :=
  fold_left join2 ps a.

(** [s.rsplit(',')[0]]: the text before the first comma. *)
Fixpoint rsplit_comma_0 (s : string) : string :=
  match s with
  | EmptyString => EmptyString
  | String c rest =>
      if Ascii.eqb c "," then EmptyString else String c (rsplit_comma_0 rest)
  end.

(** A dict with string keys. Python dicts iterate in insertion order,
    and assigning to a key that is present keeps its position. *)
Definition dict (V : Type) : Type := list (string * V).

Fixpoint dict_set {V} (d : dict V) (k : string) (v : V) : dict V :=
  match d with
  | [] => [(k, v)]
  | (k', v') :: d' =>
      if (k' =? k)%string then (k', v) :: d'
      else (k', v') :: dict_set d' k v
  end.

(** Objects a module-level name can be bound to. *)
Inductive pyobj (C : Type) : Type :=
| PyModule (name : string)
| PyFunction (name : string)
| PyStr (s : string)
| PyData (c : C).
Arguments PyModule {C} name.
Arguments PyFunction {C} name.
Arguments PyStr {C} s.
Arguments PyData {C} c.

(** [str(o)], as [str.format] inserts it. *)
Definition str {C} (o : pyobj C) : string :=
  match o with
  | PyModule n => "<module '" +:+ n +:+ "'>"
  | PyFunction n => "<function " +:+ n +:+ ">"
  | PyStr s => s
  | PyData _ => "<GeoDataFrame>"
  end.

(** A name that is neither a parameter nor assigned in a function body
    is looked up in the namespace of the module when the expression is
    evaluated; an unbound name raises [NameError]. *)
Definition load_global {C} (G : gmap string (pyobj C)) (name : string)
  : result (pyobj C) :=
  match G !! name with
  | Some v => Ok v
  | None => Raise (NameError name)
  end.

(** A global that is used as the conflict geo-dataframe. *)
Definition load_data {C} (G : gmap string (pyobj C)) (name : string)
  : result C :=
  do v <- load_global G name;
  match v with
  | PyData c => Ok c
  | _ => Raise (AttributeError "object is not a geo-dataframe")
  end.

End Py.
Import Py.

(* ===================================================================== *)
(** * copro/data.py                                                      *)
(* ===================================================================== *)

Module Data.

(** ** The values and the libraries data.py works with *)

(** One row of the polygon geo-dataframe. *)
Record polygon (Geom : Type) : Type := mk_polygon
  { watprovID : Z;
    geometry : Geom }.
Arguments mk_polygon {Geom} watprovID geometry.
Arguments watprovID {Geom} p.
Arguments geometry {Geom} p.

Definition GeoDataFrame (Geom : Type) : Type := list (polygon Geom).

(** The boolean DataFrame [neighboring_polys] returns: row labels,
    column labels and one row of values per row label. *)
Record DataFrame : Type := mk_DataFrame
  { index : list Z;
    columns : list Z;
    values : list (list bool) }.

(** [np.dtype(nc_ds.time)] *)
Inductive dtype : Type :=
| float32
| float64
| datetime64_ns
| other_dtype (name : string).

(** copro/conflict.py is not part of the sources at hand; data.py and
    machine_learning.py call these functions of it. *)
Record conflict_py (Geom C : Type) : Type :=
  { conflict_in_year_bool :
      ConfigParser → C → GeoDataFrame Geom → Z → string
      → list (cell Geom);
    (* the last two arguments are check_neighbors and neighboring_matrix *)
    conflict_in_previous_year :
      ConfigParser → C → GeoDataFrame Geom → Z
      → bool → option DataFrame → list (cell Geom);
    read_projected_conflict :
      GeoDataFrame Geom → C → bool → option DataFrame → list (cell Geom);
    get_poly_ID : GeoDataFrame Geom → list (cell Geom);
    get_poly_geometry : GeoDataFrame Geom → ConfigParser → list (cell Geom);
    split_conflict_geom_data :
      ndarray Geom
      → result (list (cell Geom) * list (cell Geom) * ndarray Geom) }.
Arguments conflict_in_year_bool {Geom C} c.
Arguments conflict_in_previous_year {Geom C} c.
Arguments read_projected_conflict {Geom C} c.
Arguments get_poly_ID {Geom C} c.
Arguments get_poly_geometry {Geom C} c.
Arguments split_conflict_geom_data {Geom C} c.

(** copro/variables.py, likewise. *)
Record variables_py (Geom : Type) : Type :=
  { nc_with_float_timestamp :
      GeoDataFrame Geom → ConfigParser → string → string → Z
      → list (cell Geom);
    nc_with_continous_datetime_timestamp :
      GeoDataFrame Geom → ConfigParser → string → string → Z
      → list (cell Geom) }.
Arguments nc_with_float_timestamp {Geom} v.
Arguments nc_with_continous_datetime_timestamp {Geom} v.

(** What the code uses of xarray and geopandas: the dtype of the time
    axis of the dataset at a path, and [geometry.touches]. *)
Record geo_libs (Geom : Type) : Type :=
  { open_dataset_time : string → result dtype;
    touches : Geom → Geom → bool }.
Arguments open_dataset_time {Geom} g.
Arguments touches {Geom} g.

(** The names bound at module level in data.py: its imports and its
    functions. *)
Definition module_globals {C} : gmap string (pyobj C) :=
  list_to_map
    [ ("conflict", PyModule "copro.conflict");
      ("variables", PyModule "copro.variables");
      ("np", PyModule "numpy");
      ("xr", PyModule "xarray");
      ("pd", PyModule "pandas");
      ("os", PyModule "os");
      ("sys", PyModule "sys");
      ("initiate_XY_data", PyFunction "initiate_XY_data");
      ("initiate_X_data", PyFunction "initiate_X_data");
      ("fill_XY", PyFunction "fill_XY");
      ("fill_XY_ref", PyFunction "fill_XY_ref");
      ("fill_XY_proj", PyFunction "fill_XY_proj");
      ("split_XY_data", PyFunction "split_XY_data");
      ("neighboring_polys", PyFunction "neighboring_polys");
      ("find_neighbors", PyFunction "find_neighbors") ].

Section assembly.
Context {Geom C : Type}.
Context (G : gmap string (pyobj C)).
Context (conflict : conflict_py Geom C).
Context (variables : variables_py Geom).
Context (libs : geo_libs Geom).

Abbreviation Series := (list (cell Geom)).

(** ** initiate_XY_data, initiate_X_data *)

Definition initiate_XY_data (config : ConfigParser)
  : result (dict Series) :=
  let XY := [] in
  let XY := dict_set XY "poly_ID" [] in
  let XY := dict_set XY "poly_geometry" [] in
  do data <- items config "data";
  let XY := fold_left (λ XY key, dict_set XY (fst key) []) data XY in
  let XY := dict_set XY "conflict_t_min_1" [] in
  let XY := dict_set XY "conflict_t_min_1_nb" [] in
  let XY := dict_set XY "conflict" [] in
  do verbose <- getboolean config "general" "verbose";
  Ok XY.

Definition initiate_X_data (config : ConfigParser)
  : result (dict Series) :=
  let X := [] in
  let X := dict_set X "poly_ID" [] in
  let X := dict_set X "poly_geometry" [] in
  do data <- items config "data";
  let X := fold_left (λ X key, dict_set X (fst key) []) data X in
  let X := dict_set X "conflict_t_min_1" [] in
  let X := dict_set X "conflict_t_min_1_nb" [] in
  do verbose <- getboolean config "general" "verbose";
  Ok X.

(** ** neighboring_polys, find_neighbors *)

(** [extent_gdf.geometry.touches(wp)] *)
Definition touches_series (extent_gdf : GeoDataFrame Geom) (wp : Geom)
  : list bool :=
  map (λ p, touches libs (geometry p) wp) extent_gdf.

(** The loop appends one row per polygon; afterwards the row and the
    column labels are replaced by the identifiers. *)
Definition neighboring_polys (config : ConfigParser)
    (extent_gdf : GeoDataFrame Geom) : DataFrame :=
  let df :=
    fold_left
      (λ df p, df ++ [touches_series extent_gdf (geometry p)])
      extent_gdf [] in
  let ids := map watprovID extent_gdf in
  {| index := ids; columns := ids; values := df |}.

(** [neighboring_matrix.loc[neighboring_matrix.index == watprovID]]:
    the rows labelled [watprovID]. *)
Definition rows_labelled (watprovID : Z) (m : DataFrame)
  : list (list bool) :=
  map snd (filter (λ r, fst r = watprovID) (zip (index m) (values m))).

(** The column labels at which a row holds [True]. *)
Definition true_labels (labels : list Z) (row : list bool) : list Z :=
  map fst (filter (λ lb, snd lb = true) (zip labels row)).

Definition find_neighbors (watprovID : Z) (neighboring_matrix : DataFrame)
  : result (list Z) :=
  match rows_labelled watprovID neighboring_matrix with
  | [] =>
      (* the transposed frame has no column named watprovID *)
      Raise (KeyError (pretty watprovID))
  | [row] => Ok (true_labels (columns neighboring_matrix) row)
  | _ :: _ :: _ =>
      (* neighbours[watprovID] is a frame, not a series *)
      Raise (ValueError "Cannot index with multidimensional key")
  end.

(** ** fill_XY_ref, fill_XY_proj, fill_XY *)

(** [data_series.append(pd.Series(data_list), ignore_index=True)]
    followed by [XY[key] = data_series]. *)
Definition append_to (XY : dict Series) (key : string) (value : Series)
    (data_list : Series) : dict Series :=
  dict_set XY key (value ++ data_list).

Definition nc_path (config : ConfigParser) (root_dir key : string)
  : result string :=
  do input_dir <- get config "general" "input_dir";
  do file <- get config "data" key;
  Ok (rsplit_comma_0 (os_path_join root_dir [input_dir; file])).

Definition unsupported_dtype_msg : string :=
  "WARNING: this nc-file does have a different dtype for the time variable than currently supported: ".

(** The [else] branch of the key dispatch: a variable of the cfg-file. *)
Definition fill_variable (XY : dict Series) (config : ConfigParser)
    (root_dir : string) (polygon_gdf : GeoDataFrame Geom) (year : Z)
    (key : string) (value : Series) : result (dict Series) :=
  do path <- nc_path config root_dir key;
  do time <- open_dataset_time libs path;
  match time with
  | float32 | float64 =>
      Ok (append_to XY key value
            (nc_with_float_timestamp variables polygon_gdf config root_dir key year))
  | datetime64_ns =>
      Ok (append_to XY key value
            (nc_with_continous_datetime_timestamp variables polygon_gdf config root_dir key year))
  | other_dtype _ =>
      (* raise Warning('...{}'.format(nc_fo)) *)
      do nc_fo <- load_global G "nc_fo";
      Raise (Warning (unsupported_dtype_msg +:+ str nc_fo))
  end.

(** The body of [for key, value in XY.items()] in [fill_XY_ref]. The
    parameter of the function is called [conflict_data]; the body
    reads [conflict_gdf]. *)
Definition fill_key_ref (config : ConfigParser) (root_dir : string)
    (conflict_data : C) (polygon_gdf : GeoDataFrame Geom)
    (out_dir : string) (neighboring_matrix : DataFrame) (sim_year : Z)
    (XY : dict Series) (kv : string * Series) : result (dict Series) :=
  let '(key, value) := kv in
  if (key =? "conflict")%string then
    do conflict_gdf <- load_data G "conflict_gdf";
    Ok (append_to XY key value
          (conflict_in_year_bool conflict config conflict_gdf polygon_gdf sim_year out_dir))
  else if (key =? "conflict_t_min_1")%string then
    do conflict_gdf <- load_data G "conflict_gdf";
    Ok (append_to XY key value
          (conflict_in_previous_year conflict config conflict_gdf polygon_gdf sim_year false None))
  else if (key =? "conflict_t_min_1_nb")%string then
    do conflict_gdf <- load_data G "conflict_gdf";
    Ok (append_to XY key value
          (conflict_in_previous_year conflict config conflict_gdf polygon_gdf sim_year
             true (Some neighboring_matrix)))
  else if (key =? "poly_ID")%string then
    Ok (append_to XY key value (get_poly_ID conflict polygon_gdf))
  else if (key =? "poly_geometry")%string then
    Ok (append_to XY key value (get_poly_geometry conflict polygon_gdf config))
  else
    fill_variable XY config root_dir polygon_gdf sim_year key value.

(** Every key of the dict is visited once, in insertion order, and
    only the entry of the key visited is assigned to: the pairs seen
    by the loop are those the dict held when the loop began. *)
Definition fill_year_ref (config : ConfigParser) (root_dir : string)
    (conflict_data : C) (polygon_gdf : GeoDataFrame Geom)
    (out_dir : string) (neighboring_matrix : DataFrame)
    (XY : dict Series) (year_i : Z * nat) : result (dict Series) :=
  let '(sim_year, i) := year_i in
  match i with
  | O => Ok XY   (* skipping first year to start up model *)
  | S _ =>
      for_each
        (fill_key_ref config root_dir conflict_data polygon_gdf out_dir
           neighboring_matrix sim_year)
        XY XY
  end.

Definition fill_XY_ref (XY : dict Series) (config : ConfigParser)
    (root_dir : string) (conflict_data : C)
    (polygon_gdf : GeoDataFrame Geom) (out_dir : string)
    (model_period : list Z) : result (dict Series) :=
  let neighboring_matrix := neighboring_polys config polygon_gdf in
  for_each
    (fill_year_ref config root_dir conflict_data polygon_gdf out_dir
       neighboring_matrix)
    (zip model_period (seq 0 (length model_period))) XY.

Definition fill_key_proj (config : ConfigParser) (root_dir : string)
    (conflict_data : C) (polygon_gdf : GeoDataFrame Geom)
    (neighboring_matrix : DataFrame) (proj_year : Z)
    (XY : dict Series) (kv : string * Series) : result (dict Series) :=
  let '(key, value) := kv in
  if (key =? "conflict_t_min_1")%string then
    Ok (append_to XY key value
          (read_projected_conflict conflict polygon_gdf conflict_data false None))
  else if (key =? "conflict_t_min_1_nb")%string then
    Ok (append_to XY key value
          (read_projected_conflict conflict polygon_gdf conflict_data
             true (Some neighboring_matrix)))
  else if (key =? "poly_ID")%string then
    Ok (append_to XY key value (get_poly_ID conflict polygon_gdf))
  else if (key =? "poly_geometry")%string then
    Ok (append_to XY key value (get_poly_geometry conflict polygon_gdf config))
  else
    fill_variable XY config root_dir polygon_gdf proj_year key value.

Definition fill_XY_proj (XY : dict Series) (config : ConfigParser)
    (root_dir : string) (conflict_data : C)
    (polygon_gdf : GeoDataFrame Geom) (proj_year : Z)
  : result (dict Series) :=
  let neighboring_matrix := neighboring_polys config polygon_gdf in
  for_each
    (fill_key_proj config root_dir conflict_data polygon_gdf
       neighboring_matrix proj_year)
    XY XY.

(** [np.arange(start, stop, 1)] *)
Definition arange (start stop : Z) : list Z :=
  map (λ i, start + Z.of_nat i) (seq 0 (Z.to_nat (stop - start))).

(** [pd.DataFrame.from_dict(XY).to_numpy()]: one column per key, in
    the order of the dict; the series are aligned on their index, so
    a series shorter than the longest one is filled up with NaN. *)
Definition from_dict_to_numpy (XY : dict Series) : ndarray Geom :=
  let n := foldr (λ kv m, Nat.max (length (snd kv)) m) 0%nat XY in
  mk_ndarray (length XY)
    (map (λ i, map (λ kv, nth i (snd kv) NaN) XY) (seq 0 n)).

Definition fill_XY (XY : dict Series) (config : ConfigParser)
    (root_dir : string) (conflict_data : C)
    (polygon_gdf : GeoDataFrame Geom) (out_dir : string)
    (proj : bool) (proj_year : option Z) : result (ndarray Geom) :=
  if negb proj then
    do y_start <- getint config "settings" "y_start";
    do y_end <- getint config "settings" "y_end";
    let model_period := arange y_start (y_end + 1) in
    match model_period with
    | [] =>
        (* print(... model_period[0], model_period[-1]) *)
        Raise IndexError
    | _ :: _ =>
        do XY <- fill_XY_ref XY config root_dir conflict_data polygon_gdf
                   out_dir model_period;
        Ok (from_dict_to_numpy XY)
    end
  else
    match proj_year with
    | None =>
        Raise (ValueError "ERROR: if proj=True, also a projection year must be specified!")
    | Some proj_year =>
        do XY <- fill_XY_proj XY config root_dir conflict_data polygon_gdf
                   proj_year;
        Ok (from_dict_to_numpy XY)
    end.

(** How pipeline.py calls [fill_XY]: with five or with six positional
    arguments. [out_dir] has no default value. *)
Definition call_fill_XY (XY : dict Series) (config : ConfigParser)
    (root_dir : string) (conflict_data : C)
    (polygon_gdf : GeoDataFrame Geom) (out_dir : option string)
  : result (ndarray Geom) :=
  match out_dir with
  | None =>
      Raise (TypeError "fill_XY() missing 1 required positional argument: 'out_dir'")
  | Some out_dir =>
      fill_XY XY config root_dir conflict_data polygon_gdf out_dir false None
  end.

(** The columns that hold conflict data, the time axes the code
    knows how to read, and the lengths of the columns of a store. *)
Definition conflict_key (key : string) : Prop :=
  key = "conflict" ∨ key = "conflict_t_min_1"
  ∨ key = "conflict_t_min_1_nb".

(** The columns every store has, besides those of the variables. *)
Definition fixed_keys : list string :=
  ["poly_ID"; "poly_geometry"; "conflict_t_min_1"; "conflict_t_min_1_nb";
   "conflict"].

(** The columns of the store for a projection, besides those of the
    variables. *)
Definition projection_keys : list string :=
  ["poly_ID"; "poly_geometry"; "conflict_t_min_1"; "conflict_t_min_1_nb"].

Definition supported (time : dtype) : Prop :=
  time = float32 ∨ time = float64 ∨ time = datetime64_ns.

Definition column_lengths (XY : dict Series) : list (string * nat) :=
  map (λ kv, (fst kv, length (snd kv))) XY.

(** A store with empty columns and distinct keys, all among [keys]. *)
Definition fresh_store (keys : list string) (XY : dict Series) : Prop :=
  NoDup (map fst XY)
  ∧ Forall (λ kv, snd kv = []) XY
  ∧ ∀ k, k ∈ map fst XY → k ∈ keys.

(** A loop body that appends [p] entries to the column it visits. *)
Definition appends (p : nat)
    (step : dict Series → string * Series → result (dict Series))
    (key : string) : Prop :=
  ∀ value, ∃ data,
    length data = p
    ∧ ∀ XY, step XY (key, value) = Ok (append_to XY key value data).

(** A variable of the cfg-file whose dataset is found and has a
    supported time axis. *)
Definition readable (config : ConfigParser) (root_dir key : string)
  : Prop :=
  ∃ path time,
    nc_path config root_dir key = Ok path
    ∧ open_dataset_time libs path = Ok time
    ∧ supported time.
End assembly.

Section split.
Context {Geom : Type}.

(** [DataFrame.dropna()]: a row stays when none of its entries is
    missing. *)
Definition complete (r : list (cell Geom)) : bool :=
  forallb (λ c, negb (isna c)) r.

Definition dropna (a : ndarray Geom) : ndarray Geom :=
  mk_ndarray (ncols a) (filter (λ r, complete r = true) (rows a)).

(** [XY[:, :-1]] *)
Definition all_but_last_column (a : ndarray Geom) : ndarray Geom :=
  mk_ndarray (ncols a - 1) (map (λ r, take (length r - 1) r) (rows a)).

(** [XY[:, -1]]: an index error on an array without columns. *)
Definition last_column (a : ndarray Geom) : result (list (cell Geom)) :=
  match ncols a with
  | O => Raise IndexError
  | S _ => Ok (map (λ r, List.last r NaN) (rows a))
  end.

(** [Y.astype(int)] *)
Definition astype_int (y : list (cell Geom)) : result (list Z) :=
  map_result to_int64 y.

Definition split_XY_data (XY : ndarray Geom) (config : ConfigParser)
  : result (ndarray Geom * list Z) :=
  do verbose <- getboolean config "general" "verbose";
  let XY := dropna XY in
  let X := all_but_last_column XY in
  do Y <- last_column XY;
  do Y <- astype_int Y;
  if verbose
  then
    (* fraction_Y_1 = 100*len(np.where(Y != 0)[0])/len(Y) *)
    match Y with
    | [] => Raise ZeroDivisionError
    | _ => Ok (X, Y)
    end
  else Ok (X, Y).
End split.

End Data.

(* ===================================================================== *)
(** * copro/machine_learning.py                                          *)
(* ===================================================================== *)

Module MachineLearning.

(** The scaler and classifier instances of scikit-learn the code can
    construct. The hyper-parameters are constants of the source. *)
Inductive scaler : Type :=
| MinMaxScaler
| StandardScaler
| RobustScaler
| QuantileTransformer.

Inductive classifier : Type :=
| NuSVC                    (* nu=0.1, kernel='rbf', class_weight={1: 100} *)
| KNeighborsClassifier     (* n_neighbors=10, weights='distance' *)
| RandomForestClassifier.  (* n_estimators=1000, class_weight={1: 100} *)

Definition no_scaler_msg : string :=
  "no supported scaling-algorithm selected - choose between MinMaxScaler, StandardScaler, RobustScaler or QuantileTransformer".

Definition no_model_msg : string :=
  "no supported ML model selected - choose between NuSVC, KNeighborsClassifier or RFClassifier".

(** The names a configuration may give. *)
Definition supported_scalers : list string :=
  ["MinMaxScaler"; "StandardScaler"; "RobustScaler"; "QuantileTransformer"].

Definition supported_models : list string :=
  ["NuSVC"; "KNeighborsClassifier"; "RFClassifier"].

(** The name of each scaler and of each model in the cfg-file. *)
Definition scaler_names : list (string * scaler) :=
  [ ("MinMaxScaler", MinMaxScaler); ("StandardScaler", StandardScaler);
    ("RobustScaler", RobustScaler);
    ("QuantileTransformer", QuantileTransformer) ].

Definition model_names : list (string * classifier) :=
  [ ("NuSVC", NuSVC); ("KNeighborsClassifier", KNeighborsClassifier);
    ("RFClassifier", RandomForestClassifier) ].

Definition define_scaling (config : ConfigParser) : result scaler :=
  do name <- get config "machine_learning" "scaler";
  do scaler <-
    (if (name =? "MinMaxScaler")%string then Ok MinMaxScaler
     else if (name =? "StandardScaler")%string then Ok StandardScaler
     else if (name =? "RobustScaler")%string then Ok RobustScaler
     else if (name =? "QuantileTransformer")%string then Ok QuantileTransformer
     else Raise (ValueError no_scaler_msg));
  do verbose <- getboolean config "general" "verbose";
  Ok scaler.

Definition define_model (config : ConfigParser) : result classifier :=
  do name <- get config "machine_learning" "model";
  do clf <-
    (if (name =? "NuSVC")%string then Ok NuSVC
     else if (name =? "KNeighborsClassifier")%string then Ok KNeighborsClassifier
     else if (name =? "RFClassifier")%string then Ok RandomForestClassifier
     else Raise (ValueError no_model_msg));
  do verbose <- getboolean config "general" "verbose";
  Ok clf.

(** What the code uses of scikit-learn: [scaler.fit_transform], and the
    random draw of [model_selection.train_test_split], which for [n]
    samples and a test size yields the row indices of the train and of
    the test partition. *)
Record sklearn (Geom : Type) : Type :=
  { fit_transform : scaler → ndarray Geom → result (ndarray Geom);
    shuffle_split : nat → Q → result (list nat * list nat) }.
Arguments fit_transform {Geom} s.
Arguments shuffle_split {Geom} s.

Section split_scale.
Context {Geom C : Type}.
Context (conflict : Data.conflict_py Geom C).
Context (sk : sklearn Geom).

(** [np.column_stack((X_ID, X_geom, X_ft))] *)
Definition column_stack (X_ID X_geom : list (cell Geom))
    (X_ft : ndarray Geom) : result (ndarray Geom) :=
  if (length X_ID =? len X_ft)%nat && (length X_geom =? len X_ft)%nat
  then Ok (mk_ndarray (2 + ncols X_ft)
             (zip_with (λ ig r, fst ig :: snd ig :: r)
                (zip X_ID X_geom) (rows X_ft)))
  else Raise (ValueError "all the input array dimensions except for the concatenation axis must match exactly").

(** [a[idx]] for a list of row indices. *)
Definition take_rows {A} (a : list A) (idx : list nat) : result (list A) :=
  map_result
    (λ i, match a !! i with Some r => Ok r | None => Raise IndexError end)
    idx.

(** [model_selection.train_test_split(X, Y, test_size=...)]: both
    arrays are indexed with the same two index lists. *)
Definition train_test_split (X : ndarray Geom) (Y : list Z) (test_size : Q)
  : result (ndarray Geom * ndarray Geom * list Z * list Z) :=
  if negb (len X =? length Y)%nat
  then Raise (ValueError "Found input variables with inconsistent numbers of samples")
  else
    do '(train, test) <- shuffle_split sk (len X) test_size;
    do X_train <- take_rows (rows X) train;
    do X_test <- take_rows (rows X) test;
    do y_train <- take_rows Y train;
    do y_test <- take_rows Y test;
    Ok (mk_ndarray (ncols X) X_train, mk_ndarray (ncols X) X_test,
        y_train, y_test).

Record split_result : Type := mk_split_result
  { X_train : ndarray Geom;
    X_test : ndarray Geom;
    y_train : list Z;
    y_test : list Z;
    X_train_geom : list (cell Geom);
    X_test_geom : list (cell Geom);
    X_train_ID : list (cell Geom);
    X_test_ID : list (cell Geom) }.

Definition split_scale_train_test_split (X : ndarray Geom) (Y : list Z)
    (config : ConfigParser) (scaler : scaler) : result split_result :=
  do '(X_ID, X_geom, X_data) <- Data.split_conflict_geom_data conflict X;
  do verbose <- getboolean config "general" "verbose";
  do X_ft <- fit_transform sk scaler X_data;
  do X_cs <- column_stack X_ID X_geom X_ft;
  do train_fraction <- getfloat config "machine_learning" "train_fraction";
  do '(X_train, X_test, y_train, y_test) <-
    train_test_split X_cs Y (1 - train_fraction)%Q;
  do '(X_train_ID, X_train_geom, X_train) <-
    Data.split_conflict_geom_data conflict X_train;
  do '(X_test_ID, X_test_geom, X_test) <-
    Data.split_conflict_geom_data conflict X_test;
  if negb (length X_test_ID =? len X_test)%nat then
    Raise (AssertionError "lenght X_test_ID does not match lenght X_test"
             (length X_test_ID) (len X_test))
  else if negb (length X_test_geom =? len X_test)%nat then
    Raise (AssertionError "lenght X_test_geom does not match lenght X_test"
             (length X_test_geom) (len X_test))
  else
    Ok (mk_split_result X_train X_test y_train y_test
          X_train_geom X_test_geom X_train_ID X_test_ID).

End split_scale.
Arguments split_result : clear implicits.

End MachineLearning.

(* ===================================================================== *)
(** * copro/pipeline.py                                                  *)
(* ===================================================================== *)

Module Pipeline.

(** [np.save] and [np.load] act on the files of the machine. The log
    keeps the order of the accesses. Of the files only the arrays that
    [np.load] can read are kept, under their paths; for any other
    path [np.load] raises an OSError, whether nothing is there or a
    directory. *)
Inductive io_event : Type :=
| NpSave (path : string)
| NpLoad (path : string).

Record world (Geom : Type) : Type := mk_world
  { files : gmap string (ndarray Geom);
    log : list io_event }.
Arguments mk_world {Geom} files log.
Arguments files {Geom} w.
Arguments log {Geom} w.

(** A computation that can touch the files: its outcome and the world
    it leaves, also when it raises. *)
Definition io (Geom A : Type) : Type := world Geom → result A * world Geom.

Definition io_bind {Geom A B} (m : io Geom A) (f : A → io Geom B)
  : io Geom B :=
  λ w, match m w with
       | (Ok a, w') => f a w'
       | (Raise e, w') => (Raise e, w')
       end.

Definition lift {Geom A} (r : result A) : io Geom A := λ w, (r, w).

Notation "'io!' x <- m ; k" := (io_bind m (λ x, k))
  (at level 10, x name, m at level 100, k at level 200,
   format "'[v' 'io!'  x  <-  m ;  '/' k ']'").

(** [np.save(file, arr)] appends the extension .npy to a file name
    that lacks it. *)
Definition npy_name (file : string) : string :=
  if (String.substring (String.length file - 4) 4 file =? ".npy")%string
  then file else file +:+ ".npy".

Definition np_save {Geom} (file : string) (arr : ndarray Geom)
  : io Geom unit :=
  λ w, (Ok (),
        mk_world (<[npy_name file := arr]> (files w))
                 (log w ++ [NpSave (npy_name file)])).

Definition np_load {Geom} (file : string) : io Geom (ndarray Geom) :=
  λ w, (match files w !! file with
        | Some arr => Ok arr
        | None => Raise (OSError file)
        end,
        mk_world (files w) (log w ++ [NpLoad file])).

Section pipeline.
Context {Geom C : Type}.
Context (conflict : Data.conflict_py Geom C).
Context (variables : Data.variables_py Geom).
Context (libs : Data.geo_libs Geom).

(** The source tests [config.get('pre_calc', 'XY') is '']. CPython
    keeps a single empty string object, so on the strings that
    ConfigParser returns the identity test agrees with equality.
    The functions of data.py run in the namespace of data.py. *)
Definition create_XY (config : ConfigParser) (out_dir root_dir : string)
    (polygon_gdf : Data.GeoDataFrame Geom) (conflict_gdf : C)
  : io Geom (ndarray Geom * list Z) :=
  io! pre <- lift (get config "pre_calc" "XY");
  io! XY <-
    (if (pre =? "")%string then
       io! XY <- lift (Data.initiate_XY_data config);
       (* data.fill_XY(XY, config, root_dir, conflict_gdf, polygon_gdf) *)
       io! XY <- lift (Data.call_fill_XY Data.module_globals conflict
                         variables libs XY config root_dir conflict_gdf
                         polygon_gdf None);
       io! _ <- np_save (os_path_join out_dir ["XY"]) XY;
       lift (Ok XY)
     else
       io! pre <- lift (get config "pre_calc" "XY");
       np_load (os_path_join root_dir [pre]));
  lift (Data.split_XY_data XY config).

Definition create_X (config : ConfigParser) (out_dir root_dir : string)
    (polygon_gdf : Data.GeoDataFrame Geom) (conflict_gdf : C)
  : io Geom (ndarray Geom) :=
  io! pre <- lift (get config "pre_calc" "XY");
  if (pre =? "")%string then
    io! X <- lift (Data.initiate_X_data config);
    (* data.fill_XY(X, config, root_dir, conflict_gdf, polygon_gdf) *)
    io! X <- lift (Data.call_fill_XY Data.module_globals conflict
                     variables libs X config root_dir conflict_gdf
                     polygon_gdf None);
    io! _ <- np_save (os_path_join out_dir ["X"]) X;
    lift (Ok X)
  else
    io! pre_X <- lift (get config "pre_calc" "X");
    np_load (os_path_join root_dir [pre_X]).

Definition prepare_ML (config : ConfigParser)
  : result (MachineLearning.scaler * MachineLearning.classifier) :=
  do scaler <- MachineLearning.define_scaling config;
  do clf <- MachineLearning.define_model config;
  Ok (scaler, clf).
End pipeline.

(** The parameters of [create_XY]; none of them has a default value. *)
Definition create_XY_parameters : list string :=
  ["config"; "out_dir"; "root_dir"; "polygon_gdf"; "conflict_gdf"].

End Pipeline.

(* ===================================================================== *)
(** * conflict_model/evaluation.py                                       *)
(* ===================================================================== *)

Module Evaluation.

Section average_hit.
Context {Geom : Type}.

(** One test-set row of one run, with the two columns the function
    reads. *)
Record test_row : Type := mk_test_row
  { ID : Z;
    overall_hit : Z }.

(** One row of the frame that is returned. [geometry] is the column
    merged in from [global_df]; it is missing when [global_df] has no
    row for the identifier. *)
Record hit_row : Type := mk_hit_row
  { hit_ID : Z;
    ID_count : nat;
    total_hits : Z;
    average_hit : Q;
    geometry : option Geom }.

(** [df.ID.value_counts()]: how often each identifier occurs. *)
Definition value_counts (df : list test_row) : gmap Z nat :=
  fold_left
    (λ m r, <[ID r := S (default 0%nat (m !! ID r))]> m) df ∅.

(** [df.overall_hit.groupby(df.ID).sum()] *)
Definition groupby_sum (df : list test_row) : gmap Z Z :=
  fold_left
    (λ m r, <[ID r := default 0 (m !! ID r) + overall_hit r]> m) df ∅.

(** [pd.merge(ID_count, hit_count, on='ID')]: the identifiers present
    in both frames. *)
Definition merge_on_ID (ID_count : gmap Z nat) (hit_count : gmap Z Z)
  : gmap Z (nat * Z) :=
  map_zip_with pair ID_count hit_count.

(** [df_temp.total_hits / df_temp.ID_count] *)
Definition divide (total_hits : Z) (ID_count : nat) : Q :=
  (inject_Z total_hits / inject_Z (Z.of_nat ID_count))%Q.

(** [pd.merge(df_temp, global_df, on='ID', how='left')]: every row on
    the left is kept, once for each row of [global_df] with its
    identifier, or once with a missing geometry when there is none. *)
Definition merge_left (global_df : list (Z * Geom))
    (row : Z * (nat * Z)) : list hit_row :=
  let '(id, (n, hits)) := row in
  match filter (λ g, fst g = id) global_df with
  | [] => [mk_hit_row id n hits (divide hits n) None]
  | gs => map (λ g, mk_hit_row id n hits (divide hits n) (Some (snd g))) gs
  end.

(** The rows come in the order of the keys of the finite map; the
    order pandas gives them (by falling count) is not modelled. *)
Definition get_average_hit (df : list test_row)
    (global_df : list (Z * Geom)) : list hit_row * list hit_row :=
  let ID_count := value_counts df in
  let hit_count := groupby_sum df in
  let df_temp := merge_on_ID ID_count hit_count in
  let df_hit := flat_map (merge_left global_df) (map_to_list df_temp) in
  let gdf_hit := df_hit in
  (df_hit, gdf_hit).

(** The two quantities the aggregation is about, written directly on
    the rows: how often an identifier appears in the test rows of
    all runs, and how many of these rows are hits. *)
Definition appearances (id : Z) (df : list test_row) : nat :=
  length (filter (λ r, ID r = id) df).

Definition hits (id : Z) (df : list test_row) : Z :=
  foldr (λ r s, overall_hit r + s) 0 (filter (λ r, ID r = id) df).
End average_hit.
Arguments test_row : clear implicits.
Arguments hit_row : clear implicits.

End Evaluation.

(* ===================================================================== *)
(** * scripts/runner.py                                                  *)
(* ===================================================================== *)

Module Runner.

(** runner.py addresses the package under the name conflict_model. Its
    modules pipeline and evaluation are the ones at hand; its modules
    utils, selection and plots are not, and enter as functions that
    can raise. *)
Record package (Geom C : Type) : Type :=
  { initiate_setup : string → result (ConfigParser * string);
    select :
      ConfigParser → string →
      result (C * Data.GeoDataFrame Geom * Data.GeoDataFrame Geom
              * list (Z * Geom));
    plot_active_polys :
      C → Data.GeoDataFrame Geom → ConfigParser → string → result unit }.
Arguments initiate_setup {Geom C} p.
Arguments select {Geom C} p.
Arguments plot_active_polys {Geom C} p.

(** The calls into these modules, in the order in which [main] makes
    them. The comment of [main] says of [select] that it selects the
    conflicts and gets the area of interest: it is the step that reads
    the conflict and polygon files. *)
Inductive event : Type :=
| InitiateSetup (cfg : string)
| Select
| PlotActivePolys.

(** The calls made so far and the outcome. *)
Definition traced (A : Type) : Type := list event * result A.

Definition tbind {A B} (m : traced A) (f : A → traced B) : traced B :=
  match m with
  | (t, Ok a) => let '(t', r) := f a in (t ++ t', r)
  | (t, Raise e) => (t, Raise e)
  end.

Definition call {A} (e : event) (r : result A) : traced A := ([e], r).

Definition quiet {A} (r : result A) : traced A := ([], r).

Notation "'tr!' x <- m ; k" := (tbind m (λ x, k))
  (at level 10, x name, m at level 100, k at level 200,
   format "'[v' 'tr!'  x  <-  m ;  '/' k ']'").
Notation "'tr!' ' p <- m ; k" := (tbind m (λ x, match x with p => k end))
  (at level 10, p pattern, m at level 100, k at level 200,
   format "'[v' 'tr!'  ' p  <-  m ;  '/' k ']'").

(** [main], up to its call of [create_XY]. The call passes three
    positional arguments, config, conflict_gdf and
    extent_active_polys_gdf, for the five parameters of [create_XY];
    Python raises the TypeError when it binds them, so neither the
    body of [create_XY] nor any statement of [main] after the call
    ([prepare_ML], the runs, the reports) is ever run. *)
Definition main {Geom C} (pkg : package Geom C) (cfg : string)
  : traced unit :=
  tr! ' (config, out_dir) <- call (InitiateSetup cfg) (initiate_setup pkg cfg);
  tr! verbose <- quiet (getboolean config "general" "verbose");
  tr! ' (conflict_gdf, extent_gdf, extent_active_polys_gdf, global_df) <-
    call Select (select pkg config out_dir);
  tr! _ <- call PlotActivePolys
             (plot_active_polys pkg conflict_gdf extent_active_polys_gdf
                config out_dir);
  (* X, Y = conflict_model.pipeline.create_XY(config, conflict_gdf,
                                              extent_active_polys_gdf) *)
  quiet (Raise (missing_positional "create_XY"
                  Pipeline.create_XY_parameters 3)).

End Runner.

(* ===================================================================== *)
(** * copro/conflict.py, from its description                            *)
(* ===================================================================== *)

Module Conflict.

(** Modelled from the spec: copro/conflict.py is missing. "ConflictEvent:
    location + date/year; many events map onto one polygon (external
    collaborator resolves the geometry predicate)": an event carries
    its year and the identifier of the polygon it falls in. *)
Record conflict_event : Type := mk_event
  { event_year : Z;
    event_polygon : Z }.

Definition conflict_gdf : Type := list conflict_event.

Section conflict.
Context {Geom : Type}.

(** Modelled from the spec: copro/conflict.py is missing.
    "conflict_in_year(year): true if at least one conflict event is
    attributed to that polygon in that year." *)
Definition had_conflict (events : conflict_gdf) (year id : Z) : bool :=
  existsb
    (λ e, (event_year e =? year) && (event_polygon e =? id)) events.

(** Modelled from the spec: copro/conflict.py is missing. The label
    column: "conflict_in_year(year)" for every polygon, in the order
    of the polygons. *)
Definition conflict_in_year_bool (config : ConfigParser)
    (events : conflict_gdf) (polygon_gdf : Data.GeoDataFrame Geom)
    (sim_year : Z) (out_dir : string) : list (cell Geom) :=
  map (λ p, Bool (had_conflict events sim_year (Data.watprovID p)))
    polygon_gdf.

(** Modelled from the spec: copro/conflict.py is missing. "Without
    neighbor aggregation, boolean self-lag for year - 1; with an
    adjacency matrix supplied, returns, per polygon, the fraction of
    its neighbors (0.0 if it has none) that had conflict in
    year - 1." *)
Definition neighbour_fraction (events : conflict_gdf) (year : Z)
    (neighbours : list Z) : Q :=
  match neighbours with
  | [] => 0
  | _ =>
      (inject_Z (Z.of_nat (length (List.filter (had_conflict events year) neighbours)))
       / inject_Z (Z.of_nat (length neighbours)))%Q
  end.

(** Modelled from the spec: copro/conflict.py is missing. The lag of
    one polygon: the neighbours are those [find_neighbors] gives. *)
Definition lagged (events : conflict_gdf) (year : Z)
    (check_neighbors : bool) (neighboring_matrix : option Data.DataFrame)
    (p : Data.polygon Geom) : cell Geom :=
  match check_neighbors, neighboring_matrix with
  | true, Some m =>
      match Data.find_neighbors (Data.watprovID p) m with
      | Ok ns => Float (neighbour_fraction events year ns)
      | Raise _ => NaN
      end
  | _, _ => Bool (had_conflict events year (Data.watprovID p))
  end.

(** Modelled from the spec: copro/conflict.py is missing.
    "conflict_in_previous_year(year, neighbors)": the lag of every
    polygon for [year - 1]. *)
Definition conflict_in_previous_year (config : ConfigParser)
    (events : conflict_gdf) (polygon_gdf : Data.GeoDataFrame Geom)
    (sim_year : Z) (check_neighbors : bool)
    (neighboring_matrix : option Data.DataFrame) : list (cell Geom) :=
  map (lagged events (sim_year - 1) check_neighbors neighboring_matrix)
    polygon_gdf.

(** Modelled from the spec: copro/conflict.py is missing.
    "read_projected_conflict: returns the same shapes using
    externally supplied projected conflict state": the events handed
    in are the projected state, whatever their year. *)
Definition projected (events : conflict_gdf) (id : Z) : bool :=
  existsb (λ e, event_polygon e =? id) events.

(** Modelled from the spec: copro/conflict.py is missing.
    "read_projected_conflict": the two lag columns, read from the
    projected state. *)
Definition read_projected_conflict
    (polygon_gdf : Data.GeoDataFrame Geom) (events : conflict_gdf)
    (check_neighbors : bool) (neighboring_matrix : option Data.DataFrame)
  : list (cell Geom) :=
  map (λ p,
         match check_neighbors, neighboring_matrix with
         | true, Some m =>
             match Data.find_neighbors (Data.watprovID p) m with
             | Ok ns =>
                 Float (match ns with
                        | [] => 0
                        | _ => inject_Z (Z.of_nat (length (List.filter (projected events) ns)))
                               / inject_Z (Z.of_nat (length ns))
                        end)%Q
             | Raise _ => NaN
             end
         | _, _ => Bool (projected events (Data.watprovID p))
         end)
    polygon_gdf.

(** Modelled from the spec: copro/conflict.py is missing. One
    identifier and one geometry per polygon, in the order of the
    polygons. *)
Definition get_poly_ID (polygon_gdf : Data.GeoDataFrame Geom)
  : list (cell Geom) :=
  map (λ p, Int (Data.watprovID p)) polygon_gdf.

(** Modelled from the spec: copro/conflict.py is missing. The
    geometry column. *)
Definition get_poly_geometry (polygon_gdf : Data.GeoDataFrame Geom)
    (config : ConfigParser) : list (cell Geom) :=
  map (λ p, Geometry (Data.geometry p)) polygon_gdf.

(** Modelled from the spec: copro/conflict.py is missing.
    "split_columns(matrix) -> (ids, geometries, numeric_data):
    numeric_data excludes identifier and geometry", with the column
    order "[identifier, geometry, variable_1, ...]": the columns
    [X[:, 0]], [X[:, 1]] and [X[:, 2:]]. *)
Definition split_conflict_geom_data (X : ndarray Geom)
  : result (list (cell Geom) * list (cell Geom) * ndarray Geom) :=
  if (ncols X <? 2)%nat then Raise IndexError
  else Ok (map (λ r, nth 0 r NaN) (rows X),
           map (λ r, nth 1 r NaN) (rows X),
           mk_ndarray (ncols X - 2) (map (drop 2) (rows X))).

(** Modelled from the spec: copro/conflict.py is missing. The
    functions above, as the module that data.py and
    machine_learning.py import. *)
Definition module : Data.conflict_py Geom conflict_gdf :=
  {| Data.conflict_in_year_bool := conflict_in_year_bool;
     Data.conflict_in_previous_year := conflict_in_previous_year;
     Data.read_projected_conflict := read_projected_conflict;
     Data.get_poly_ID := get_poly_ID;
     Data.get_poly_geometry := get_poly_geometry;
     Data.split_conflict_geom_data := split_conflict_geom_data |}.
End conflict.

End Conflict.

(* ===================================================================== *)
(** * A small world to run the code in                                   *)
(* ===================================================================== *)

Module Fixture.

(** Polygons on a line: a geometry is an interval, and two intervals
    touch when they share an end point. *)
Definition interval : Type := Z * Z.

Definition touches (a b : interval) : bool :=
  (snd a =? fst b) || (snd b =? fst a).

Definition P1 : Data.polygon interval := Data.mk_polygon 1 (0, 10).
Definition P2 : Data.polygon interval := Data.mk_polygon 2 (10, 20).
Definition P3 : Data.polygon interval := Data.mk_polygon 3 (20, 30).
Definition polygons : Data.GeoDataFrame interval := [P1; P2; P3].

(** Conflict in P1 in 2001 and in 2002. *)
Definition events : Conflict.conflict_gdf :=
  [Conflict.mk_event 2001 1; Conflict.mk_event 2002 1].

(** A configuration given by its options, for each kind of getter. *)
Definition lookup_option {V} (tbl : list (string * string * V))
    (section option : string) : result V :=
  match List.find
          (λ e, (fst (fst e) =? section)%string && (snd (fst e) =? option)%string)
          tbl with
  | Some e => Ok (snd e)
  | None => Raise (NoOptionError section option)
  end.

Record options : Type :=
  { verbose : bool;
    y_start : Z;
    y_end : Z;
    n_runs : Z;
    scaler : string;
    model : string;
    train_fraction : Q;
    pre_calc_XY : string;
    pre_calc_X : string;
    data : list (string * string) }.

Definition config_of (o : options) : ConfigParser :=
  {| get :=
       lookup_option
         ([ ("general", "input_dir", "input");
            ("machine_learning", "scaler", scaler o);
            ("machine_learning", "model", model o);
            ("pre_calc", "XY", pre_calc_XY o);
            ("pre_calc", "X", pre_calc_X o) ]
          ++ map (λ kv, ("data", fst kv, snd kv)) (data o));
     getboolean := lookup_option [("general", "verbose", verbose o)];
     getint :=
       lookup_option
         [ ("settings", "y_start", y_start o);
           ("settings", "y_end", y_end o);
           ("settings", "n_runs", n_runs o) ];
     getfloat :=
       lookup_option [("machine_learning", "train_fraction", train_fraction o)];
     items :=
       λ section,
         if (section =? "data")%string then Ok (data o)
         else Raise (NoSectionError section) |}.

Definition reference : options :=
  {| verbose := false;
     y_start := 2000;
     y_end := 2002;
     n_runs := 2;
     scaler := "MinMaxScaler";
     model := "RFClassifier";
     train_fraction := 2 # 3;
     pre_calc_XY := "";
     pre_calc_X := "";
     data := [("rainfall", "rainfall.nc,mean")] |}.

Definition config : ConfigParser := config_of reference.

(** The same configuration with a scaler that is not supported. *)
Definition unsupported : options :=
  {| verbose := false;
     y_start := 2000;
     y_end := 2002;
     n_runs := 2;
     scaler := "MaxAbsScaler";
     model := "RFClassifier";
     train_fraction := 2 # 3;
     pre_calc_XY := "";
     pre_calc_X := "";
     data := [("rainfall", "rainfall.nc,mean")] |}.

(** A configuration that names pre-computed arrays. *)
Definition reuse : options :=
  {| verbose := false;
     y_start := 2000;
     y_end := 2002;
     n_runs := 2;
     scaler := "MinMaxScaler";
     model := "RFClassifier";
     train_fraction := 2 # 3;
     pre_calc_XY := "XY.npy";
     pre_calc_X := "X.npy";
     data := [("rainfall", "rainfall.nc,mean")] |}.

(** A configuration with a variable that is called conflict. *)
Definition conflict_variable : options :=
  {| verbose := false;
     y_start := 2000;
     y_end := 2002;
     n_runs := 2;
     scaler := "MinMaxScaler";
     model := "RFClassifier";
     train_fraction := 2 # 3;
     pre_calc_XY := "";
     pre_calc_X := "";
     data := [("conflict", "conflict.nc,mean"); ("rainfall", "rainfall.nc,mean")] |}.

(** A period that ends before it starts, and one of a single year. *)
Definition backwards : options :=
  {| verbose := false;
     y_start := 2002;
     y_end := 2000;
     n_runs := 2;
     scaler := "MinMaxScaler";
     model := "RFClassifier";
     train_fraction := 2 # 3;
     pre_calc_XY := "";
     pre_calc_X := "";
     data := [("rainfall", "rainfall.nc,mean")] |}.

Definition single_year : options :=
  {| verbose := false;
     y_start := 2000;
     y_end := 2000;
     n_runs := 2;
     scaler := "MinMaxScaler";
     model := "RFClassifier";
     train_fraction := 2 # 3;
     pre_calc_XY := "";
     pre_calc_X := "";
     data := [("rainfall", "rainfall.nc,mean")] |}.

(** [utils.initiate_setup]: the parsed cfg-file and the output folder. *)
Definition initiate_setup (cfg : string) : ConfigParser * string :=
  if (cfg =? "unsupported.cfg")%string then (config_of unsupported, "out")
  else (config, "out").

Definition global_df : list (Z * interval) :=
  [(1, (0, 10)); (2, (10, 20)); (3, (20, 30))].

(** The modules utils, selection and plots of the package, on this
    world: every polygon is active, and plotting succeeds. *)
Definition package : Runner.package interval Conflict.conflict_gdf :=
  {| Runner.initiate_setup := λ cfg, Ok (initiate_setup cfg);
     Runner.select := λ _ _, Ok (events, polygons, polygons, global_df);
     Runner.plot_active_polys := λ _ _ _ _, Ok () |}.

(** Every dataset has the given time axis. *)
Definition libs (time : Data.dtype) : Data.geo_libs interval :=
  {| Data.open_dataset_time := λ _, Ok time;
     Data.touches := touches |}.

(** Rainfall of polygon [p] in year [y]: a made-up value per polygon
    and year. *)
Definition rainfall (polygon_gdf : Data.GeoDataFrame interval)
    (config : ConfigParser) (root_dir key : string) (year : Z)
  : list (cell interval) :=
  map (λ p, Float (inject_Z (year - 2000 + Data.watprovID p))) polygon_gdf.

Definition variables : Data.variables_py interval :=
  {| Data.nc_with_float_timestamp := rainfall;
     Data.nc_with_continous_datetime_timestamp := rainfall |}.

Definition conflict : Data.conflict_py interval Conflict.conflict_gdf :=
  Conflict.module.

(** A scaler that halves every number, and a draw that puts the rows
    2 and 0 into the train partition and row 1 into the test
    partition. *)
Definition halve (c : cell interval) : cell interval :=
  match c with
  | Float q => Float (q / 2)
  | Int z => Float (inject_Z z / 2)
  | c => c
  end.

Definition sk : MachineLearning.sklearn interval :=
  {| MachineLearning.fit_transform :=
       λ _ a, Ok (mk_ndarray (ncols a) (map (map halve) (rows a)));
     MachineLearning.shuffle_split := λ n test_size, Ok ([2; 0], [1])%nat |}.

(** Three complete rows and their labels. *)
Definition X : ndarray interval :=
  mk_ndarray 3
    [ [Int 1; Geometry (0, 10); Float 2];
      [Int 2; Geometry (10, 20); Float 3];
      [Int 3; Geometry (20, 30); Float 4] ].

Definition Y : list Z := [1; 0; 0].

(** The files of a machine on which X.npy was written before. *)
Definition disk : Pipeline.world interval :=
  Pipeline.mk_world {[ "root/X.npy" := X ]} [].

(** A machine on which XY.npy holds the sample matrix below. *)
Definition disk_XY (XY : ndarray interval) : Pipeline.world interval :=
  Pipeline.mk_world {[ "root/XY.npy" := XY ]} [].

(** A sample matrix in which the rainfall of polygon 2 is missing. *)
Definition sample : ndarray interval :=
  mk_ndarray 4
    [ [Int 1; Geometry (0, 10); Float 2; Bool true];
      [Int 2; Geometry (10, 20); NaN; Bool false];
      [Int 3; Geometry (20, 30); Float 4; Bool false] ].

(** Test rows of two runs: polygon 1 is in the test set of both runs,
    predicted correctly in the first and wrongly in the second;
    polygon 2 is in the test set of the second run only. *)
Definition test_rows : list Evaluation.test_row :=
  [ Evaluation.mk_test_row 1 1;
    Evaluation.mk_test_row 1 0;
    Evaluation.mk_test_row 2 1 ].

End Fixture.

(* ===================================================================== *)
(** * Properties                                                         *)
(* ===================================================================== *)

(** ** The result monad *)

Lemma bind_Ok {A B} (m : result A) (f : A → result B) b :
  Py.bind m f = Ok b ↔ ∃ a, m = Ok a ∧ f a = Ok b.
Proof.
  destruct m as [a|e]; simpl; split.
  - eauto.
  - intros (a' & Ha & Hf). by inversion Ha.
  - discriminate.
  - intros (a' & Ha & _). discriminate.
Qed.

Lemma map_result_Ok {A B} (f : A → result B) xs ys :
  map_result f xs = Ok ys ↔ Forall2 (λ x y, f x = Ok y) xs ys.
Proof.
  revert ys. induction xs as [|x xs IH]; intros ys; simpl.
  - split.
    + intros [= <-]. constructor.
    + intros H. by inversion H.
  - rewrite bind_Ok. split.
    + intros (y & Hy & Hrest). apply bind_Ok in Hrest as (ys' & Hys & [= <-]).
      constructor; [done | by apply IH].
    + intros H. inversion H as [|? y ? ys' Hy Hys]; subst.
      exists y. split; [done|]. apply bind_Ok. exists ys'.
      split; [by apply IH | done].
Qed.

Lemma map_result_total {A B} (f : A → result B) xs :
  Forall (λ x, ∃ y, f x = Ok y) xs → ∃ ys, map_result f xs = Ok ys.
Proof.
  induction 1 as [|x xs [y Hy] _ [ys Hys]]; simpl.
  - by eexists.
  - rewrite Hy, Hys. simpl. by eexists.
Qed.

(** ** data.py: the assembly of the sample store *)

Module Assembly.
Import Data.

(** Membership in a list that is written out. *)
Ltac in_list := apply (bool_decide_unpack _); vm_compute; exact I.

Section facts.
Context {Geom C : Type}.
Context (G : gmap string (pyobj C)).
Context (conflict : conflict_py Geom C).
Context (variables : variables_py Geom).
Context (libs : geo_libs Geom).

Abbreviation Series := (list (cell Geom)).
Implicit Types (XY : dict Series) (kv : string * Series).

(** *** Names that are not bound *)

Lemma for_each_Ok_steps {A S} (f : S → A → result S) xs s s' :
  for_each f xs s = Ok s' → ∀ x, x ∈ xs → ∃ s1 s2, f s1 x = Ok s2.
Proof.
  revert s. induction xs as [|y xs IH]; intros s H x Hx.
  - by apply elem_of_nil in Hx.
  - simpl in H. apply bind_Ok in H as (s1 & Hy & H).
    apply elem_of_cons in Hx as [->|Hx]; [eauto|]. by eapply IH.
Qed.

(** Without a global [conflict_gdf] the three conflict columns
    cannot be filled. *)
Lemma fill_key_ref_unbound config root_dir conflict_data polygon_gdf
    out_dir m sim_year XY key value :
  G !! "conflict_gdf" = None → conflict_key key →
  fill_key_ref G conflict variables libs config root_dir conflict_data
    polygon_gdf out_dir m sim_year XY (key, value)
  = Raise (NameError "conflict_gdf").
Proof.
  intros HG [->| [->| ->]]; unfold fill_key_ref, load_data, load_global;
    simpl; by rewrite HG.
Qed.

(** In a period of two years or more the second year is entered, and
    the loop over the columns stops at the first conflict column. *)
Lemma fill_XY_ref_unbound XY config root_dir conflict_data polygon_gdf
    out_dir y0 y1 years key value :
  G !! "conflict_gdf" = None →
  conflict_key key → (key, value) ∈ XY →
  ∀ XY', fill_XY_ref G conflict variables libs XY config root_dir
           conflict_data polygon_gdf out_dir (y0 :: y1 :: years)
         ≠ Ok XY'.
Proof.
  intros HG Hkey Hin XY' H. unfold fill_XY_ref in H. simpl in H.
  apply bind_Ok in H as (XY1 & Hyear & _).
  apply for_each_Ok_steps with (x := (key, value)) in Hyear as (s1 & s2 & Hs);
    [|done].
  by rewrite fill_key_ref_unbound in Hs.
Qed.

(** For a variable with another time axis than the supported ones
    the message names [nc_fo], which is not bound either. *)
Lemma fill_variable_unsupported XY config root_dir polygon_gdf year key
    value path name :
  G !! "nc_fo" = None →
  nc_path config root_dir key = Ok path →
  open_dataset_time libs path = Ok (other_dtype name) →
  fill_variable G variables libs XY config root_dir polygon_gdf year key value
  = Raise (NameError "nc_fo").
Proof.
  intros HG Hpath Htime. unfold fill_variable, load_global.
  rewrite Hpath. simpl. rewrite Htime. simpl. by rewrite HG.
Qed.
End facts.

Section growth.
Context {Geom C : Type}.
Context (G : gmap string (pyobj C)).
Context (conflict : conflict_py Geom C).
Context (variables : variables_py Geom).
Context (libs : geo_libs Geom).
Implicit Types (XY pre suf : dict (list (cell Geom))).

(** *** The dict *)

Lemma dict_set_keys {V} (d : dict V) k v :
  map fst (dict_set d k v)
  = if bool_decide (k ∈ map fst d) then map fst d else map fst d ++ [k].
Proof.
  induction d as [|[k' v'] d IH]; simpl; [done|].
  destruct (String.eqb_spec k' k) as [->|Hne]; simpl.
  - rewrite bool_decide_eq_true_2 by left. done.
  - rewrite IH. destruct (bool_decide (k ∈ map fst d)) eqn:E.
    + apply bool_decide_eq_true_1 in E.
      rewrite bool_decide_eq_true_2 by (by right). done.
    + apply bool_decide_eq_false_1 in E.
      rewrite bool_decide_eq_false_2; [done|].
      intros [?|?]%elem_of_cons; congruence.
Qed.

Lemma dict_set_NoDup {V} (d : dict V) k v :
  NoDup (map fst d) → NoDup (map fst (dict_set d k v)).
Proof.
  intros Hnd. rewrite dict_set_keys. case_bool_decide as Hk; [done|].
  apply NoDup_app. repeat split; [done| |apply NoDup_singleton].
  intros x Hx ->%list_elem_of_singleton. done.
Qed.

Lemma dict_set_empty (d : dict (list (cell Geom))) k :
  Forall (λ kv, snd kv = []) d →
  Forall (λ kv, snd kv = []) (dict_set d k []).
Proof.
  induction 1 as [|[k' v'] d Hv Hd IH]; simpl.
  - by repeat constructor.
  - destruct (k' =? k)%string; constructor; done.
Qed.

Lemma dict_set_fresh_app {V} (pre suf : dict V) k v v' :
  k ∉ map fst pre →
  dict_set (pre ++ (k, v) :: suf) k v' = pre ++ (k, v') :: suf.
Proof.
  induction pre as [|[k0 v0] pre IH]; simpl; intros Hk.
  - by rewrite String.eqb_refl.
  - apply not_elem_of_cons in Hk as [Hne Hk].
    destruct (String.eqb_spec k0 k) as [->|_]; [done|].
    by rewrite IH.
Qed.

(** *** One year *)

Lemma columns_visited p step pre suf :
  NoDup (map fst (pre ++ suf)) →
  (∀ key, key ∈ map fst suf → appends p step key) →
  ∃ suf',
    for_each step suf (pre ++ suf) = Ok (pre ++ suf')
    ∧ column_lengths suf'
      = map (λ kn, (fst kn, (snd kn + p)%nat)) (column_lengths suf).
Proof.
  revert pre. induction suf as [|[k v] suf IH]; intros pre Hnd Hstep.
  - exists []. by simpl.
  - destruct (Hstep k ltac:(by left) v) as (data & Hlen & Hrun).
    simpl. rewrite Hrun. simpl. unfold append_to.
    assert (Hk : k ∉ map fst pre).
    { rewrite map_app in Hnd. apply NoDup_app in Hnd as (_ & Hdis & _).
      intros Hin. apply (Hdis k Hin). by left. }
    rewrite dict_set_fresh_app by done.
    destruct (IH (pre ++ [(k, v ++ data)])) as (suf' & Hfor & Hcols).
    + rewrite <- app_assoc. simpl.
      rewrite map_app in *. simpl in *. done.
    + intros key Hkey. apply Hstep. by right.
    + rewrite <- app_assoc in Hfor. simpl in Hfor. rewrite Hfor.
      exists ((k, v ++ data) :: suf'). rewrite <- app_assoc. simpl.
      split; [done|]. rewrite Hcols, length_app, Hlen. done.
Qed.

Lemma column_lengths_keys XY : map fst (column_lengths XY) = map fst XY.
Proof.
  unfold column_lengths. rewrite map_map. by apply map_ext.
Qed.

Lemma grown_keys XY XY' (n : nat) :
  column_lengths XY'
  = map (λ kn, (fst kn, (snd kn + n)%nat)) (column_lengths XY) →
  map fst XY' = map fst XY.
Proof.
  intros H. rewrite <- (column_lengths_keys XY'), H, map_map. simpl.
  apply column_lengths_keys.
Qed.

(** *** The years after the first *)

Section years.
Context (config : ConfigParser) (root_dir : string) (conflict_data : C).
Context (polygon_gdf : GeoDataFrame Geom) (out_dir : string).
Context (m : DataFrame) (p : nat).

Lemma years_entered years i XY :
  NoDup (map fst XY) →
  (∀ year key, key ∈ map fst XY →
     appends p
       (fill_key_ref G conflict variables libs config root_dir
          conflict_data polygon_gdf out_dir m year) key) →
  ∃ XY',
    for_each
      (fill_year_ref G conflict variables libs config root_dir
         conflict_data polygon_gdf out_dir m)
      (zip years (seq (S i) (length years))) XY = Ok XY'
    ∧ column_lengths XY'
      = map (λ kn, (fst kn, (snd kn + length years * p)%nat))
          (column_lengths XY).
Proof.
  revert i XY. induction years as [|y years IH]; intros i XY Hnd Hkeys.
  - exists XY. split; [done|]. simpl.
    rewrite <- (map_id (column_lengths XY)) at 1.
    apply map_ext. intros [k n]. simpl. f_equal. lia.
  - simpl.
    destruct (columns_visited p
                (fill_key_ref G conflict variables libs config root_dir
                   conflict_data polygon_gdf out_dir m y) [] XY)
      as (XY1 & Hyear & Hcols); [done | by apply Hkeys |].
    simpl in Hyear. rewrite Hyear. simpl.
    pose proof (grown_keys _ _ _ Hcols) as Hsame.
    destruct (IH (S i) XY1) as (XY' & Hrest & Hcols').
    + by rewrite Hsame.
    + intros year key. rewrite Hsame. apply Hkeys.
    + exists XY'. split; [done|]. rewrite Hcols', Hcols, map_map.
      apply map_ext. intros [k n]. simpl. f_equal. lia.
Qed.
End years.
End growth.

Section reference.
Context {Geom C : Type}.
Context (G : gmap string (pyobj C)).
Context (conflict : conflict_py Geom C).
Context (variables : variables_py Geom).
Context (libs : geo_libs Geom).
Context (config : ConfigParser) (root_dir : string) (conflict_data : C).
Context (polygon_gdf : GeoDataFrame Geom) (out_dir : string).
Implicit Types (XY : dict (list (cell Geom))).

(** *** The store that [initiate_XY_data] returns *)

Lemma dict_set_elem {V} (d : dict V) k v : (k, v) ∈ dict_set d k v.
Proof.
  induction d as [|[k' v'] d IH]; simpl; [left|].
  destruct (String.eqb_spec k' k) as [->|_]; [left | by right].
Qed.

Lemma dict_set_other {V} (d : dict V) k v kv :
  kv ∈ d → fst kv ≠ k → kv ∈ dict_set d k v.
Proof.
  induction d as [|[k' v'] d IH]; simpl; intros Hin Hne.
  - by apply elem_of_nil in Hin.
  - apply elem_of_cons in Hin as [->|Hin].
    + simpl in Hne. destruct (String.eqb_spec k' k); [done | left].
    + destruct (String.eqb_spec k' k) as [->|_]; right; [done|].
      by apply IH.
Qed.

Lemma fresh_store_set keys XY k :
  k ∈ keys → fresh_store keys XY → fresh_store keys (dict_set XY k []).
Proof.
  intros Hk (Hnd & Hempty & Hkeys). repeat split.
  - by apply dict_set_NoDup.
  - by apply dict_set_empty.
  - intros k'. rewrite dict_set_keys. case_bool_decide; [by apply Hkeys|].
    intros [?| ->%list_elem_of_singleton]%elem_of_app; [by apply Hkeys | done].
Qed.

Lemma fresh_store_variables keys (data : list (string * string)) XY :
  (∀ k, k ∈ map fst data → k ∈ keys) →
  fresh_store keys XY →
  fresh_store keys (fold_left (λ XY key, dict_set XY (fst key) []) data XY).
Proof.
  revert XY. induction data as [|kv data IH]; intros XY Hdata Hfresh; [done|].
  simpl. apply IH.
  - intros k Hk. apply Hdata. by right.
  - apply fresh_store_set; [|done]. apply Hdata. by left.
Qed.

Lemma initiate_XY_data_store data XY0 :
  items config "data" = Ok data →
  initiate_XY_data config = Ok XY0 →
  fresh_store (fixed_keys ++ map fst data) XY0
  ∧ ("conflict", []) ∈ XY0.
Proof.
  intros Hdata H. unfold initiate_XY_data in H. rewrite Hdata in H.
  cbv beta iota delta [Py.bind] in H.
  destruct (getboolean config "general" "verbose"); [|done].
  injection H as <-.
  split; [|apply dict_set_elem].
  assert (Hfix : ∀ k, k ∈ fixed_keys → k ∈ fixed_keys ++ map fst data)
    by (intros k Hk; apply elem_of_app; by left).
  do 3 (apply fresh_store_set; [apply Hfix; in_list|]).
  apply fresh_store_variables.
  { intros k Hk. apply elem_of_app. by right. }
  split_and!.
  - in_list.
  - by repeat constructor.
  - intros k Hk. apply Hfix. simpl in Hk.
    repeat (apply elem_of_cons in Hk as [->|Hk]; [in_list|]).
    by apply elem_of_nil in Hk.
Qed.

(** *** Every column is visited and grows *)

Section bound.
Context (conflict_gdf : C) (p : nat).
Hypothesis conflict_gdf_bound : G !! "conflict_gdf" = Some (PyData conflict_gdf).
Hypothesis one_ID_per_polygon :
  length (get_poly_ID conflict polygon_gdf) = p.
Hypothesis one_geometry_per_polygon :
  length (get_poly_geometry conflict polygon_gdf config) = p.
Hypothesis one_label_per_polygon :
  ∀ year,
    length (conflict_in_year_bool conflict config conflict_gdf
              polygon_gdf year out_dir) = p.
Hypothesis one_lag_per_polygon :
  ∀ year nb m,
    length (conflict_in_previous_year conflict config conflict_gdf
              polygon_gdf year nb m) = p.
Hypothesis one_value_per_polygon :
  ∀ key year,
    length (nc_with_float_timestamp variables polygon_gdf config
              root_dir key year) = p
    ∧ length (nc_with_continous_datetime_timestamp variables polygon_gdf
                config root_dir key year) = p.

Lemma fill_key_ref_appends m year key :
  key ∈ fixed_keys ∨ readable libs config root_dir key →
  appends p
    (fill_key_ref G conflict variables libs config root_dir conflict_data
       polygon_gdf out_dir m year) key.
Proof.
  intros Hkey value. unfold fill_key_ref, load_data, load_global.
  rewrite conflict_gdf_bound. simpl.
  repeat (match goal with
          | |- context [if (key =? ?s)%string then _ else _] =>
              destruct (key =? s)%string eqn:?
          end;
          [eexists; split; [|intros XY; reflexivity];
           solve [ apply one_label_per_polygon | apply one_lag_per_polygon
                 | apply one_ID_per_polygon
                 | apply one_geometry_per_polygon ] |]).
  destruct Hkey as [Hfixed|(path & time & Hpath & Htime & Hsup)].
  { exfalso. unfold fixed_keys in Hfixed.
    repeat (apply elem_of_cons in Hfixed as [->|Hfixed];
            [simpl in *; congruence|]).
    by apply elem_of_nil in Hfixed. }
  unfold fill_variable. rewrite Hpath. simpl. rewrite Htime. simpl.
  destruct (one_value_per_polygon key year) as [Hf Hd].
  destruct Hsup as [->| [->| ->]]; eexists;
    (split; [|intros XY; reflexivity]); done.
Qed.

(** With [conflict_gdf] bound, the first year of the period is
    skipped and each later year appends one entry per polygon to
    every column of the store. *)
Lemma fill_XY_ref_grows XY model_period :
  NoDup (map fst XY) →
  (∀ key, key ∈ map fst XY →
     key ∈ fixed_keys ∨ readable libs config root_dir key) →
  ∃ XY',
    fill_XY_ref G conflict variables libs XY config root_dir
      conflict_data polygon_gdf out_dir model_period = Ok XY'
    ∧ column_lengths XY'
      = map (λ kn, (fst kn, (snd kn + (length model_period - 1) * p)%nat))
          (column_lengths XY).
Proof.
  intros Hnd Hkeys. unfold fill_XY_ref.
  destruct model_period as [|y0 years].
  - exists XY. split; [done|]. simpl.
    rewrite <- (map_id (column_lengths XY)) at 1.
    apply map_ext. intros [k n]. simpl. f_equal. lia.
  - simpl. rewrite Nat.sub_0_r.
    apply years_entered; [done|].
    intros year key Hk. apply fill_key_ref_appends. by apply Hkeys.
Qed.
End bound.
End reference.

(** Neither name is bound in data.py. *)
Lemma conflict_gdf_unbound {C} :
  (module_globals : gmap string (pyobj C)) !! "conflict_gdf" = None.
Proof. by vm_compute. Qed.

Lemma nc_fo_unbound {C} :
  (module_globals : gmap string (pyobj C)) !! "nc_fo" = None.
Proof. by vm_compute. Qed.

Section period.
Context {Geom C : Type}.
Context (conflict : conflict_py Geom C).
Context (variables : variables_py Geom).
Context (libs : geo_libs Geom).
Context (config : ConfigParser) (root_dir : string) (conflict_data : C).
Context (polygon_gdf : GeoDataFrame Geom) (out_dir : string).
Context (data : list (string * string)) (y_start y_end : Z).
Context (XY0 : dict (list (cell Geom))).
Hypothesis variables_of_config : items config "data" = Ok data.
Hypothesis store_initiated : initiate_XY_data config = Ok XY0.
Hypothesis first_year : getint config "settings" "y_start" = Ok y_start.
Hypothesis last_year : getint config "settings" "y_end" = Ok y_end.

Lemma arange_length start stop :
  length (arange start stop) = Z.to_nat (stop - start).
Proof. unfold arange. by rewrite length_map, length_seq. Qed.

(** In data.py as it is, assembling a period of two years or more
    in reference mode never returns. *)
Lemma reference_assembly_never_returns :
  y_start < y_end →
  ∀ XY, fill_XY module_globals conflict variables libs XY0 config root_dir
          conflict_data polygon_gdf out_dir false None ≠ Ok XY.
Proof.
  intros Hlt XY H. unfold fill_XY in H. simpl in H.
  rewrite first_year, last_year in H. simpl in H.
  assert (Hn : ∃ n, Z.to_nat (y_end + 1 - y_start) = S (S n))
    by (exists (Z.to_nat (y_end - y_start - 1)); lia).
  destruct Hn as [n Hn]. unfold arange in H. rewrite Hn in H. simpl in H.
  apply bind_Ok in H as (XY' & H & _).
  destruct (initiate_XY_data_store config data XY0) as [_ Hin]; [done..|].
  eapply fill_XY_ref_unbound in H; [done | apply conflict_gdf_unbound | | exact Hin].
  by left.
Qed.

(** Were [conflict_gdf] a global of data.py, and with collaborators
    that give one entry per polygon and variables that can be read,
    the assembly over the years [y_start] to [y_end] would return a
    store in which every column has [(y_end - y_start) * p] entries. *)
Lemma reference_assembly_grows_when_bound (G : gmap string (pyobj C))
    (conflict_gdf : C) (p : nat) :
  G !! "conflict_gdf" = Some (PyData conflict_gdf) →
  length (get_poly_ID conflict polygon_gdf) = p →
  length (get_poly_geometry conflict polygon_gdf config) = p →
  (∀ year,
     length (conflict_in_year_bool conflict config conflict_gdf
               polygon_gdf year out_dir) = p) →
  (∀ year nb m,
     length (conflict_in_previous_year conflict config conflict_gdf
               polygon_gdf year nb m) = p) →
  (∀ key year,
     length (nc_with_float_timestamp variables polygon_gdf config
               root_dir key year) = p
     ∧ length (nc_with_continous_datetime_timestamp variables polygon_gdf
                 config root_dir key year) = p) →
  (∀ key, key ∈ map fst data → readable libs config root_dir key) →
  y_start ≤ y_end →
  ∃ XY,
    fill_XY_ref G conflict variables libs XY0 config root_dir conflict_data
      polygon_gdf out_dir (arange y_start (y_end + 1)) = Ok XY
    ∧ column_lengths XY
      = map (λ kv, (fst kv, (Z.to_nat (y_end - y_start) * p)%nat)) XY0.
Proof.
  intros HG Hid Hgeom Hlabel Hlag Hvalue Hread Hle.
  destruct (initiate_XY_data_store config data XY0)
    as [(Hnd & Hempty & Hkeys) _]; [done..|].
  destruct (fill_XY_ref_grows G conflict variables libs config root_dir
              conflict_data polygon_gdf out_dir conflict_gdf p
              HG Hid Hgeom Hlabel Hlag Hvalue XY0
              (arange y_start (y_end + 1)))
    as (XY & Hrun & Hcols); [done| |].
  - intros key [Hk|Hk]%Hkeys%elem_of_app; [by left | right; by apply Hread].
  - exists XY. split; [done|]. rewrite Hcols, arange_length.
    unfold column_lengths. rewrite map_map.
    apply Forall_fmap_ext_1. eapply Forall_impl; [exact Hempty|].
    intros [k v]. simpl. intros ->. simpl. f_equal. lia.
Qed.
End period.

(** C1. On data.py as it is the claim fails: for the years 2000 to
    2002 and three polygons, with collaborators that give one entry
    per polygon, the assembly in reference mode raises a NameError,
    since [fill_XY_ref] reads [conflict_gdf] while its parameter is
    called [conflict_data]; no store with columns of (2002 - 2000) * 3
    entries is returned. *)
Theorem reference_assembly_raises_NameError :
  (do XY <- initiate_XY_data Fixture.config;
   fill_XY module_globals Fixture.conflict Fixture.variables
     (Fixture.libs float64) XY Fixture.config "root" Fixture.events
     Fixture.polygons "out" false None)
  = Raise (NameError "conflict_gdf").
Proof. by vm_compute. Qed.

(** With the name bound, the same assembly gives two times three rows. *)
Example reference_assembly_when_bound :
  (do XY <- initiate_XY_data Fixture.config;
   do XY <- fill_XY (<["conflict_gdf" := PyData Fixture.events]> module_globals)
              Fixture.conflict Fixture.variables (Fixture.libs float64) XY
              Fixture.config "root" Fixture.events Fixture.polygons "out"
              false None;
   Ok (len XY, ncols XY))
  = Ok (6%nat, 6%nat).
Proof. by vm_compute. Qed.

Example reference_assembly_grows_on_fixture :
  ∃ XY0 XY,
    initiate_XY_data Fixture.config = Ok XY0
    ∧ fill_XY_ref (<["conflict_gdf" := PyData Fixture.events]> module_globals)
        Fixture.conflict Fixture.variables (Fixture.libs float64) XY0
        Fixture.config "root" Fixture.events Fixture.polygons "out"
        (arange 2000 (2002 + 1)) = Ok XY
    ∧ column_lengths XY = map (λ kv, (fst kv, (2 * 3)%nat)) XY0.
Proof.
  eexists.
  destruct (reference_assembly_grows_when_bound Fixture.conflict
              Fixture.variables (Fixture.libs float64) Fixture.config "root"
              Fixture.events Fixture.polygons "out"
              [("rainfall", "rainfall.nc,mean")] 2000 2002 _
              eq_refl eq_refl
              (<["conflict_gdf" := PyData Fixture.events]> module_globals)
              Fixture.events 3%nat)
    as (XY & Hrun & Hcols); try done.
  - intros key [->|[]%elem_of_nil]%elem_of_cons.
    exists "root/input/rainfall.nc", float64. split_and!; [done..|].
    right. by left.
  - eauto.
Qed.

(** C2. On data.py as it is the claim fails: for a variable, here
    rainfall, whose time axis is neither a float nor a datetime64[ns],
    the assembly does stop, in reference and in projection mode, but
    with the NameError of the unbound name [nc_fo] that the message
    was to be formatted with; the text of that error does not name
    the variable. *)
Theorem unsupported_time_axis_raises_NameError :
  let libs := Fixture.libs (other_dtype "int64") in
  (do XY <- initiate_XY_data Fixture.config;
   fill_XY module_globals Fixture.conflict Fixture.variables libs XY
     Fixture.config "root" Fixture.events Fixture.polygons "out" false None)
  = Raise (NameError "nc_fo")
  ∧ (do X <- initiate_X_data Fixture.config;
     fill_XY module_globals Fixture.conflict Fixture.variables libs X
       Fixture.config "root" Fixture.events Fixture.polygons "out"
       true (Some 2003))
    = Raise (NameError "nc_fo")
  ∧ Py.contains "rainfall" (message (NameError "nc_fo")) = false.
Proof. by vm_compute. Qed.

(** With a supported time axis the projection to one year returns one
    row per polygon. *)
Example projection_assembly :
  (do X <- initiate_X_data Fixture.config;
   do X <- fill_XY module_globals Fixture.conflict Fixture.variables
             (Fixture.libs datetime64_ns) X Fixture.config "root"
             Fixture.events Fixture.polygons "out" true (Some 2003);
   Ok (len X, ncols X))
  = Ok (3%nat, 5%nat).
Proof. by vm_compute. Qed.
End Assembly.

(** ** data.py: split_XY_data *)

Module DataSplit.
Import Data.

Section facts.
Context {Geom : Type}.
Implicit Types (r : list (cell Geom)) (XY : ndarray Geom).

Lemma take_removelast r : take (length r - 1) r = removelast r.
Proof.
  induction r as [|c r IH]; [done|].
  destruct r as [|c' r]; [done|].
  simpl in *. rewrite Nat.sub_0_r in IH. by rewrite IH.
Qed.

Lemma complete_spec r :
  complete r = true ↔ Forall (λ c, isna c = false) r.
Proof.
  unfold complete. rewrite forallb_forall, Forall_forall.
  split; intros H c Hc.
  - apply list_elem_of_In in Hc. apply H in Hc. by destruct (isna c).
  - apply list_elem_of_In in Hc. apply H in Hc. by rewrite Hc.
Qed.

Lemma complete_removelast r :
  complete r = true → Forall (λ c, isna c = false) (removelast r).
Proof.
  rewrite complete_spec, <- take_removelast. apply Forall_take.
Qed.

(** What [Y.astype(int)] gives for the last entries of the rows. *)
Lemma astype_int_last (kept : list (list (cell Geom))) (Y : list Z) :
  astype_int (map (λ r, List.last r NaN) kept) = Ok Y
  ↔ Forall2 (λ r y, to_int64 (List.last r NaN) = Ok y) kept Y.
Proof.
  unfold astype_int. rewrite map_result_Ok. split; intros H.
  - by apply Forall2_fmap_l in H.
  - by apply Forall2_fmap_l.
Qed.

Lemma all_but_last_dropna XY :
  all_but_last_column (dropna XY)
  = mk_ndarray (ncols XY - 1)
      (map (@removelast _) (filter (λ r, complete r = true) (rows XY))).
Proof.
  unfold all_but_last_column, dropna. simpl. f_equal.
  apply map_ext. intros r. apply take_removelast.
Qed.
End facts.

(** C6. [split_XY_data] first drops every row that has a missing
    entry in any column. For every array it returns exactly when the
    array has a column, the last entry of every remaining row casts
    to a 64-bit integer and, in verbose mode, a row remains; X is
    then made of the remaining rows without their last entry, in
    order, and Y of the last entries of the same rows, cast. No entry
    of X is missing, and X and Y have one row per remaining row. *)
Theorem split_XY_data_complete_rows {Geom} (XY : ndarray Geom)
    (config : ConfigParser) (verbose : bool) :
  getboolean config "general" "verbose" = Ok verbose →
  let kept := filter (λ r, complete r = true) (rows XY) in
  (∀ X Y,
     split_XY_data XY config = Ok (X, Y)
     ↔ (0 < ncols XY)%nat
       ∧ X = mk_ndarray (ncols XY - 1) (map (@removelast _) kept)
       ∧ Forall2 (λ r y, to_int64 (List.last r NaN) = Ok y) kept Y
       ∧ (verbose = true → kept ≠ []))
  ∧ (∀ X Y,
       split_XY_data XY config = Ok (X, Y) →
       Forall (Forall (λ c, isna c = false)) (rows X)
       ∧ len X = length Y).
Proof.
  intros Hverb kept.
  assert (Hiff : ∀ X Y,
     split_XY_data XY config = Ok (X, Y)
     ↔ (0 < ncols XY)%nat
       ∧ X = mk_ndarray (ncols XY - 1) (map (@removelast _) kept)
       ∧ Forall2 (λ r y, to_int64 (List.last r NaN) = Ok y) kept Y
       ∧ (verbose = true → kept ≠ [])).
  { intros X Y. unfold split_XY_data. rewrite Hverb.
    cbn [Py.bind]. rewrite all_but_last_dropna. fold kept.
    unfold last_column. cbn [dropna ncols rows]. fold kept.
    destruct (ncols XY) as [|k] eqn:Hk.
    { cbn [Py.bind]. split; [done | intros [? _]; lia]. }
    cbn [Py.bind]. rewrite bind_Ok. split.
    - intros (Y' & HY' & Hret). apply astype_int_last in HY'.
      assert (X = mk_ndarray (S k - 1) (map (@removelast _) kept)
              ∧ Y = Y' ∧ (verbose = true → Y' ≠ [])) as (-> & -> & Hne).
      { destruct verbose; [destruct Y'; [done|]|];
          injection Hret as <- <-; done. }
      repeat split; [lia | done |].
      intros Hv Hk0. rewrite Hk0 in HY'. apply Forall2_nil_inv_l in HY'.
      by apply Hne.
    - intros (_ & -> & HY & Hne). exists Y.
      split; [by apply astype_int_last|].
      destruct verbose; [|done].
      destruct Y; [|done].
      apply Forall2_nil_inv_r in HY. by destruct (Hne eq_refl). }
  split; [done|].
  intros X Y (_ & -> & HY & _)%Hiff. split.
  - simpl. rewrite Forall_map, Forall_forall. intros r Hr.
    apply complete_removelast.
    apply list_elem_of_filter in Hr. tauto.
  - unfold len. simpl. rewrite length_map. by apply Forall2_length in HY.
Qed.

Lemma split_XY_data_complete_rows_witness :
  split_XY_data Fixture.sample Fixture.config
  = Ok (mk_ndarray 3
          [ [Int 1; Geometry (0, 10); Float 2];
            [Int 3; Geometry (20, 30); Float 4] ],
        [1; 0]).
Proof.
  destruct (split_XY_data_complete_rows Fixture.sample Fixture.config false)
    as [Hiff _]; [reflexivity|].
  apply Hiff. repeat split.
  - simpl. lia.
  - repeat constructor.
  - discriminate.
Defined.

(** A label that does not fit 64 bits stops the cast. *)
Example split_XY_data_overflow :
  split_XY_data
    (mk_ndarray 2 [ [Int 1; Int (2 ^ 63)] ] : ndarray Fixture.interval)
    Fixture.config
  = Raise (OverflowError "Python int too large to convert to C long").
Proof. reflexivity. Qed.

(** On the sample the row of polygon 2 goes, as a whole. *)
Example split_XY_data_sample :
  split_XY_data Fixture.sample Fixture.config
  = Ok (mk_ndarray 3
          [ [Int 1; Geometry (0, 10); Float 2];
            [Int 3; Geometry (20, 30); Float 4] ],
        [1; 0]).
Proof. reflexivity. Qed.
End DataSplit.

(** ** data.py: neighboring_polys and find_neighbors *)

Module Adjacency.
Import Data.

Section facts.
Context {Geom : Type} (libs : geo_libs Geom).
Implicit Types (gdf : GeoDataFrame Geom) (p q : polygon Geom).

Lemma fold_left_append {A B} (f : A → B) (l : list A) (acc : list B) :
  fold_left (λ acc x, acc ++ [f x]) l acc = acc ++ map f l.
Proof.
  revert acc. induction l as [|x l IH]; intros acc; simpl.
  - by rewrite app_nil_r.
  - rewrite IH. by rewrite <- app_assoc.
Qed.

(** The frame the builder returns: the entry in the row of [p] and
    the column of [q] is [q.touches(p)]. Both directions of a pair
    are computed on their own. *)
Lemma neighboring_polys_values config gdf :
  values (neighboring_polys libs config gdf)
  = map (λ p, map (λ q, touches libs (geometry q) (geometry p)) gdf) gdf.
Proof.
  unfold neighboring_polys. simpl. by rewrite fold_left_append.
Qed.

Lemma zip_map_map {A B D} (f : A → B) (g : A → D) (l : list A) :
  zip (map f l) (map g l) = map (λ x, (f x, g x)) l.
Proof. induction l as [|x l IH]; simpl; [done | by rewrite IH]. Qed.

Lemma no_row_labelled {B} (rowf : polygon Geom → B) gdf (id : Z) :
  id ∉ map watprovID gdf →
  filter (λ r, fst r = id) (map (λ p, (watprovID p, rowf p)) gdf) = [].
Proof.
  induction gdf as [|q gdf IH]; simpl; intros Hid; [done|].
  apply not_elem_of_cons in Hid as [Hne Hid].
  rewrite filter_cons_False by (simpl; congruence). by apply IH.
Qed.

Lemma one_row_labelled {B} (rowf : polygon Geom → B) gdf p :
  NoDup (map watprovID gdf) → p ∈ gdf →
  filter (λ r, fst r = watprovID p) (map (λ q, (watprovID q, rowf q)) gdf)
  = [(watprovID p, rowf p)].
Proof.
  induction gdf as [|q gdf IH]; simpl; intros Hnd Hin.
  - by apply elem_of_nil in Hin.
  - apply NoDup_cons in Hnd as [Hq Hnd].
    apply elem_of_cons in Hin as [->|Hin].
    + rewrite filter_cons_True by done. by rewrite no_row_labelled.
    + rewrite filter_cons_False; [by apply IH|].
      simpl. intros Heq. apply Hq. rewrite Heq.
      by apply list_elem_of_fmap_2.
Qed.

Lemma true_labels_touches gdf (wp : Geom) :
  true_labels (map watprovID gdf) (touches_series libs gdf wp)
  = map watprovID
      (filter (λ q, touches libs (geometry q) wp = true) gdf).
Proof.
  unfold true_labels, touches_series. rewrite zip_map_map.
  induction gdf as [|q gdf IH]; simpl; [done|].
  rewrite (filter_cons _ q), (filter_cons _ (watprovID q, _)). simpl.
  destruct (touches libs (geometry q) wp) eqn:Ht;
    repeat case_decide; try congruence; simpl; by rewrite IH.
Qed.

(** What [find_neighbors] returns for a polygon of the collection. *)
Lemma find_neighbors_of_polygon config gdf p :
  NoDup (map watprovID gdf) → p ∈ gdf →
  find_neighbors (watprovID p) (neighboring_polys libs config gdf)
  = Ok (map watprovID
          (filter (λ q, touches libs (geometry q) (geometry p) = true) gdf)).
Proof.
  intros Hnd Hin. unfold find_neighbors, rows_labelled.
  rewrite neighboring_polys_values. simpl.
  rewrite zip_map_map.
  rewrite (one_row_labelled
             (λ p, map (λ q, touches libs (geometry q) (geometry p)) gdf))
    by done.
  simpl. f_equal. apply true_labels_touches.
Qed.

Lemma neighbour_iff_touches config gdf p q :
  NoDup (map watprovID gdf) → p ∈ gdf → q ∈ gdf →
  ∀ ns, find_neighbors (watprovID p) (neighboring_polys libs config gdf) = Ok ns →
  watprovID q ∈ ns ↔ touches libs (geometry q) (geometry p) = true.
Proof.
  intros Hnd Hp Hq ns. rewrite find_neighbors_of_polygon by done.
  intros [= <-]. rewrite list_elem_of_fmap. split.
  - intros (q' & Hid & Hq'). apply list_elem_of_filter in Hq' as [Ht Hq'].
    assert (q' = q) as ->; [|done].
    clear -Hnd Hq Hq' Hid. induction gdf as [|x gdf IH].
    + by apply elem_of_nil in Hq.
    + simpl in Hnd. apply NoDup_cons in Hnd as [Hx Hnd].
      apply elem_of_cons in Hq as [->|Hq];
        apply elem_of_cons in Hq' as [->|Hq']; try done.
      * exfalso. apply Hx. rewrite Hid. by apply list_elem_of_fmap_2.
      * exfalso. apply Hx. rewrite <- Hid. by apply list_elem_of_fmap_2.
      * by apply IH.
  - intros Ht. exists q. split; [done|]. by apply list_elem_of_filter.
Qed.
End facts.

(** C5. In the adjacency frame built by [neighboring_polys] for a
    collection with distinct identifiers and a symmetric touches
    predicate, [find_neighbors] returns for every two polygons A and B
    of the collection, and A is a neighbour of B exactly when B is a
    neighbour of A. *)
Theorem find_neighbors_symmetric {Geom} (libs : geo_libs Geom)
    (config : ConfigParser) (extent_gdf : GeoDataFrame Geom)
    (A B : polygon Geom) :
  (∀ g h, touches libs g h = touches libs h g) →
  NoDup (map watprovID extent_gdf) →
  A ∈ extent_gdf → B ∈ extent_gdf →
  let m := neighboring_polys libs config extent_gdf in
  ∃ nA nB,
    find_neighbors (watprovID A) m = Ok nA
    ∧ find_neighbors (watprovID B) m = Ok nB
    ∧ (watprovID A ∈ nB ↔ watprovID B ∈ nA).
Proof.
  intros Hsym Hnd HA HB m.
  pose proof (find_neighbors_of_polygon libs config extent_gdf A Hnd HA) as EA.
  pose proof (find_neighbors_of_polygon libs config extent_gdf B Hnd HB) as EB.
  eexists _, _. split; [exact EA|]. split; [exact EB|].
  rewrite (neighbour_iff_touches libs config extent_gdf B A Hnd HB HA _ EB).
  rewrite (neighbour_iff_touches libs config extent_gdf A B Hnd HA HB _ EA).
  by rewrite Hsym.
Qed.

Lemma find_neighbors_symmetric_witness :
  let m := neighboring_polys (Fixture.libs float64) Fixture.config Fixture.polygons in
  ∃ nA nB,
    find_neighbors 1 m = Ok nA ∧ find_neighbors 2 m = Ok nB
    ∧ (1 ∈ nB ↔ 2 ∈ nA).
Proof.
  apply (find_neighbors_symmetric (Fixture.libs float64) Fixture.config
           Fixture.polygons Fixture.P1 Fixture.P2).
  - intros [a b] [c d]. simpl. unfold Fixture.touches. simpl.
    rewrite orb_comm. done.
  - apply (bool_decide_unpack _). by vm_compute.
  - set_solver.
  - set_solver.
Defined.
End Adjacency.

(** ** machine_learning.py: split_scale_train_test_split *)

Module SplitScale.
Import MachineLearning.

(** Taking apart a successful sequence of steps. *)
Ltac step H x Hx :=
  apply bind_Ok in H as (x & Hx & H); simpl in H.

Section facts.
Context {Geom C : Type}.
Context (conflict : Data.conflict_py Geom C) (sk : sklearn Geom).

Lemma take_rows_Ok {A} (a : list A) idx l :
  take_rows a idx = Ok l ↔ Forall2 (λ i r, a !! i = Some r) idx l.
Proof.
  unfold take_rows. rewrite map_result_Ok.
  split; intros H; (eapply Forall2_impl; [exact H|]); simpl; intros i r.
  - by destruct (a !! i); intros [= ->].
  - by intros ->.
Qed.



(** The steps of the function, when it returns. *)
Lemma split_scale_steps X Y config scaler res :
  split_scale_train_test_split conflict sk X Y config scaler = Ok res →
  ∃ X_ID X_geom X_data X_ft X_cs tf Xtr Xte,
    Data.split_conflict_geom_data conflict X = Ok (X_ID, X_geom, X_data)
    ∧ fit_transform sk scaler X_data = Ok X_ft
    ∧ column_stack X_ID X_geom X_ft = Ok X_cs
    ∧ getfloat config "machine_learning" "train_fraction" = Ok tf
    ∧ train_test_split sk X_cs Y (1 - tf)%Q
      = Ok (Xtr, Xte, y_train res, y_test res)
    ∧ Data.split_conflict_geom_data conflict Xtr
      = Ok (X_train_ID res, X_train_geom res, X_train res)
    ∧ Data.split_conflict_geom_data conflict Xte
      = Ok (X_test_ID res, X_test_geom res, X_test res)
    ∧ length (X_test_ID res) = len (X_test res)
    ∧ length (X_test_geom res) = len (X_test res).
Proof.
  unfold split_scale_train_test_split. intros H.
  step H s1 H1. destruct s1 as [[X_ID X_geom] X_data].
  step H v Hv. step H X_ft Hft. step H X_cs Hcs. step H tf Htf.
  step H s2 H2. destruct s2 as [[[Xtr Xte] ytr] yte].
  step H s3 H3. destruct s3 as [[itr gtr] dtr].
  step H s4 H4. destruct s4 as [[ite gte] dte].
  destruct (length ite =? len dte)%nat eqn:E1; [|done].
  destruct (length gte =? len dte)%nat eqn:E2; [|done].
  simpl in H. injection H as <-. simpl.
  apply Nat.eqb_eq in E1, E2.
  by exists X_ID, X_geom, X_data, X_ft, X_cs, tf, Xtr, Xte.
Qed.
End facts.

Section described.
Context {Geom C : Type}.
Context (conflict : Data.conflict_py Geom C).

End described.


End SplitScale.

(** ** machine_learning.py: identifiers and geometries are carried through *)

Module CarriedThrough.
Import MachineLearning.

Section facts.
Context {Geom C : Type}.
Context (sk : sklearn Geom).
Implicit Types (X X_ft X_cs Xtr Xte : ndarray Geom) (r : list (cell Geom)).

(** The first two entries of a row of [np.column_stack((X_ID, X_geom,
    X_ft))] are the identifier and the geometry of the same row. *)
Lemma column_stack_row X_ID X_geom X_ft X_cs i r :
  column_stack X_ID X_geom X_ft = Ok X_cs →
  rows X_cs !! i = Some r →
  ∃ id g f, X_ID !! i = Some id ∧ X_geom !! i = Some g
            ∧ r = id :: g :: f.
Proof.
  unfold column_stack. destruct (_ && _); [|done].
  intros [= <-]. simpl. intros Hr.
  apply lookup_zip_with_Some in Hr as ([id g] & f & -> & Hig & _).
  apply lookup_zip_with_Some in Hig as (id' & g' & [= <- <-] & ? & ?).
  by exists id, g, f.
Qed.

Lemma column_stack_len X_ID X_geom X_ft X_cs :
  column_stack X_ID X_geom X_ft = Ok X_cs → len X_cs = length X_ID.
Proof.
  unfold column_stack.
  destruct (length X_ID =? len X_ft)%nat eqn:E1; [|done].
  destruct (length X_geom =? len X_ft)%nat eqn:E2; [|done].
  apply Nat.eqb_eq in E1, E2. intros [= <-]. unfold len in *. simpl.
  rewrite length_zip_with, length_zip_with. lia.
Qed.

Lemma train_test_split_rows X Y test_size Xtr Xte ytr yte :
  train_test_split sk X Y test_size = Ok (Xtr, Xte, ytr, yte) →
  ∃ train test,
    shuffle_split sk (len X) test_size = Ok (train, test)
    ∧ Forall2 (λ i r, rows X !! i = Some r) train (rows Xtr)
    ∧ Forall2 (λ i r, rows X !! i = Some r) test (rows Xte)
    ∧ ncols Xtr = ncols X ∧ ncols Xte = ncols X.
Proof.
  unfold train_test_split. destruct (negb _); [done|]. intros H.
  SplitScale.step H idx Hidx. destruct idx as [train test].
  SplitScale.step H a Ha. SplitScale.step H b Hb.
  SplitScale.step H c Hc. SplitScale.step H d Hd.
  injection H as <- <- <- <-. exists train, test. simpl.
  apply SplitScale.take_rows_Ok in Ha, Hb. done.
Qed.

(** The described column splitter, when it returns. *)
Lemma split_columns X ids geoms data :
  Conflict.split_conflict_geom_data X = Ok (ids, geoms, data) →
  (2 ≤ ncols X)%nat
  ∧ ids = map (λ r, nth 0 r NaN) (rows X)
  ∧ geoms = map (λ r, nth 1 r NaN) (rows X).
Proof.
  unfold Conflict.split_conflict_geom_data.
  destruct (ncols X <? 2)%nat eqn:E; [done|].
  apply Nat.ltb_ge in E. by intros [= <- <- <-].
Qed.

(** The identifier and the geometry at the head of the partition
    rows are those of the input rows with the indices drawn. *)
Lemma partition_columns X X_ID X_geom X_ft X_cs idx part :
  wf_ndarray X → (2 ≤ ncols X)%nat →
  X_ID = map (λ r, nth 0 r NaN) (rows X) →
  X_geom = map (λ r, nth 1 r NaN) (rows X) →
  column_stack X_ID X_geom X_ft = Ok X_cs →
  Forall2 (λ i r, rows X_cs !! i = Some r) idx part →
  Forall2 (λ i c, ∃ r, rows X !! i = Some r ∧ r !! 0%nat = Some c)
    idx (map (λ r, nth 0 r NaN) part)
  ∧ Forall2 (λ i c, ∃ r, rows X !! i = Some r ∧ r !! 1%nat = Some c)
      idx (map (λ r, nth 1 r NaN) part).
Proof.
  intros Hwf Hcols -> -> Hcs Hpart.
  assert (Hrow : ∀ i r, rows X_cs !! i = Some r →
            ∃ x, rows X !! i = Some x
                 ∧ x !! 0%nat = Some (nth 0 r NaN)
                 ∧ x !! 1%nat = Some (nth 1 r NaN)).
  { intros i r Hr.
    destruct (column_stack_row _ _ _ _ _ _ Hcs Hr)
      as (id & g & f & Hid & Hg & ->).
    apply list_lookup_fmap_Some in Hid as (x & -> & Hx).
    apply list_lookup_fmap_Some in Hg as (x' & -> & Hx').
    assert (x' = x) as -> by congruence.
    exists x. split; [done|]. simpl.
    unfold wf_ndarray in Hwf. rewrite Forall_forall in Hwf.
    assert (Hlen : length x = ncols X)
      by (apply Hwf; by eapply list_elem_of_lookup_2).
    destruct x as [|a [|b x]]; simpl in *; try lia. done. }
  split; apply Forall2_fmap_r;
    (eapply Forall2_impl; [exact Hpart|]); simpl; intros i r Hr;
    destruct (Hrow i r Hr) as (x & ? & ? & ?); eauto.
Qed.
End facts.

(** C8. Whatever [fit_transform] does to the numeric columns, the
    identifiers and the geometries that [split_scale_train_test_split]
    returns for the train and for the test partition are the entries
    in the first and the second column of the input rows whose indices
    were drawn for that partition, entry for entry. *)
Theorem ids_and_geometries_carried_through {Geom C}
    (conflict : Data.conflict_py Geom C) (sk : sklearn Geom)
    (X : ndarray Geom) (Y : list Z) (config : ConfigParser)
    (scaler : scaler) (res : split_result Geom) :
  (∀ A, Data.split_conflict_geom_data conflict A
        = Conflict.split_conflict_geom_data A) →
  wf_ndarray X →
  split_scale_train_test_split conflict sk X Y config scaler = Ok res →
  ∃ tf train test,
    getfloat config "machine_learning" "train_fraction" = Ok tf
    ∧ shuffle_split sk (len X) (1 - tf)%Q = Ok (train, test)
    ∧ Forall2 (λ i c, ∃ r, rows X !! i = Some r ∧ r !! 0%nat = Some c)
        train (X_train_ID res)
    ∧ Forall2 (λ i c, ∃ r, rows X !! i = Some r ∧ r !! 1%nat = Some c)
        train (X_train_geom res)
    ∧ Forall2 (λ i c, ∃ r, rows X !! i = Some r ∧ r !! 0%nat = Some c)
        test (X_test_ID res)
    ∧ Forall2 (λ i c, ∃ r, rows X !! i = Some r ∧ r !! 1%nat = Some c)
        test (X_test_geom res).
Proof.
  intros Hsplit Hwf Hres.
  destruct (SplitScale.split_scale_steps conflict sk X Y config scaler res Hres)
    as (X_ID & X_geom & X_data & X_ft & X_cs & tf & Xtr & Xte
        & H1 & Hft & Hcs & Htf & Htts & Htr & Hte & _ & _).
  rewrite Hsplit in H1, Htr, Hte.
  apply split_columns in H1 as (Hcols & HID & Hgeom).
  apply split_columns in Htr as (_ & -> & ->).
  apply split_columns in Hte as (_ & -> & ->).
  apply train_test_split_rows in Htts
    as (train & test & Hdraw & Htrain & Htest & _ & _).
  exists tf, train, test. split; [done|].
  split.
  { rewrite <- Hdraw. f_equal.
    rewrite (column_stack_len _ _ _ _ Hcs), HID. unfold len.
    by rewrite length_map. }
  destruct (partition_columns X X_ID X_geom X_ft X_cs train (rows Xtr))
    as [? ?]; try done.
  destruct (partition_columns X X_ID X_geom X_ft X_cs test (rows Xte))
    as [? ?]; done.
Qed.

Lemma ids_and_geometries_carried_through_witness :
  ∃ res,
    split_scale_train_test_split Fixture.conflict Fixture.sk Fixture.X
      Fixture.Y Fixture.config MinMaxScaler = Ok res
    ∧ X_train_ID res = [Int 3; Int 1]
    ∧ X_test_ID res = [Int 2]
    ∧ ∃ tf train test,
        getfloat Fixture.config "machine_learning" "train_fraction" = Ok tf
        ∧ shuffle_split Fixture.sk (len Fixture.X) (1 - tf)%Q = Ok (train, test)
        ∧ Forall2 (λ i c, ∃ r, rows Fixture.X !! i = Some r ∧ r !! 0%nat = Some c)
            train (X_train_ID res)
        ∧ Forall2 (λ i c, ∃ r, rows Fixture.X !! i = Some r ∧ r !! 1%nat = Some c)
            train (X_train_geom res)
        ∧ Forall2 (λ i c, ∃ r, rows Fixture.X !! i = Some r ∧ r !! 0%nat = Some c)
            test (X_test_ID res)
        ∧ Forall2 (λ i c, ∃ r, rows Fixture.X !! i = Some r ∧ r !! 1%nat = Some c)
            test (X_test_geom res).
Proof.
  eexists. split; [reflexivity|]. split; [reflexivity|]. split; [reflexivity|].
  apply (ids_and_geometries_carried_through Fixture.conflict Fixture.sk
           Fixture.X Fixture.Y Fixture.config MinMaxScaler).
  - reflexivity.
  - repeat constructor.
  - reflexivity.
Defined.
End CarriedThrough.

(** ** pipeline.py: create_XY and create_X, saving and loading *)

Module Reuse.
Import Pipeline.

Section facts.
Context {Geom C : Type}.
Context (conflict : Data.conflict_py Geom C).
Context (variables : Data.variables_py Geom).
Context (libs : Data.geo_libs Geom).

(** [np.load] leaves the files as they are and notes the access. *)
Lemma np_load_world (file : string) (w : world Geom) :
  (np_load file w).2 = mk_world (files w) (log w ++ [NpLoad file]).
Proof. done. Qed.

(** In the model of the files, what [np.save] wrote under a name is
    what [np.load] finds there. *)
Lemma np_load_np_save (file : string) (arr : ndarray Geom) (w : world Geom) :
  (np_load (npy_name file) (np_save file arr w).2).1 = Ok arr.
Proof. unfold np_load, np_save. simpl. by rewrite lookup_insert_eq. Qed.

(** In the branch that assembles, [fill_XY] is called with five
    positional arguments, so the call raises before anything is
    read or saved. *)
Lemma create_X_assembly_raises config out_dir root_dir polygon_gdf
    conflict_gdf (w : world Geom) (X0 : dict (list (cell Geom))) :
  get config "pre_calc" "XY" = Ok "" →
  Data.initiate_X_data config = Ok X0 →
  create_X conflict variables libs config out_dir root_dir polygon_gdf
    conflict_gdf w
  = (Raise (TypeError "fill_XY() missing 1 required positional argument: 'out_dir'"),
     w).
Proof.
  intros Hpre Hinit. unfold create_X, io_bind, lift.
  by rewrite Hpre, Hinit.
Qed.

(** [create_XY] makes the same call, so its assembling branch never
    reaches [np.save]; its other branch hands the array it loads to
    [split_XY_data]. *)
Lemma create_XY_assembly_raises config out_dir root_dir polygon_gdf
    conflict_gdf (w : world Geom) (XY0 : dict (list (cell Geom))) :
  get config "pre_calc" "XY" = Ok "" →
  Data.initiate_XY_data config = Ok XY0 →
  create_XY conflict variables libs config out_dir root_dir polygon_gdf
    conflict_gdf w
  = (Raise (TypeError "fill_XY() missing 1 required positional argument: 'out_dir'"),
     w).
Proof.
  intros Hpre Hinit. unfold create_XY, io_bind, lift.
  by rewrite Hpre, Hinit.
Qed.

Lemma create_XY_reuse config out_dir root_dir polygon_gdf conflict_gdf
    (w : world Geom) pre XY :
  get config "pre_calc" "XY" = Ok pre → pre ≠ "" →
  files w !! os_path_join root_dir [pre] = Some XY →
  (create_XY conflict variables libs config out_dir root_dir polygon_gdf
     conflict_gdf w).1
  = Data.split_XY_data XY config.
Proof.
  intros Hpre Hne%String.eqb_neq Hfile.
  unfold create_XY, io_bind, lift, np_load.
  by rewrite Hpre, Hne, Hfile.
Qed.
End facts.

(** C9. [create_XY] never saves the array it should assemble. With
    an empty entry XY, for a cfg-file that has the section data and
    the flag verbose, the run raises the TypeError of its call of
    [fill_XY], which lacks out_dir, before [np.save] is reached, and
    leaves the files and the log of accesses as they were. A later
    run that is configured to reuse an array therefore works on what
    was at root_dir joined with its entry XY before, not on what the
    first run assembled; when no array was there, it raises. *)
Theorem assembled_array_is_never_saved {Geom C}
    (conflict : Data.conflict_py Geom C)
    (variables : Data.variables_py Geom) (libs : Data.geo_libs Geom)
    (config : ConfigParser) (out_dir root_dir : string)
    (polygon_gdf : Data.GeoDataFrame Geom) (conflict_gdf : C)
    (w : world Geom) (vars : list (string * string)) (verbose : bool) :
  get config "pre_calc" "XY" = Ok "" →
  items config "data" = Ok vars →
  getboolean config "general" "verbose" = Ok verbose →
  let first :=
    create_XY conflict variables libs config out_dir root_dir polygon_gdf
      conflict_gdf w in
  first.1
  = Raise (TypeError "fill_XY() missing 1 required positional argument: 'out_dir'")
  ∧ files first.2 = files w
  ∧ log first.2 = log w
  ∧ (∀ config' out_dir' root_dir' pre,
       get config' "pre_calc" "XY" = Ok pre → pre ≠ "" →
       let second :=
         create_XY conflict variables libs config' out_dir' root_dir'
           polygon_gdf conflict_gdf first.2 in
       match files w !! os_path_join root_dir' [pre] with
       | Some XY => second.1 = Data.split_XY_data XY config'
       | None => ∃ e, second.1 = Raise e
       end).
Proof.
  intros Hpre Hitems Hverbose first.
  assert (Hfirst : first
    = (Raise (TypeError "fill_XY() missing 1 required positional argument: 'out_dir'"),
       w)).
  { eapply create_XY_assembly_raises; [done|].
    unfold Data.initiate_XY_data. by rewrite Hitems, Hverbose. }
  clearbody first. subst first. cbn [fst snd].
  split; [done|]. split; [done|]. split; [done|].
  intros config' out_dir' root_dir' pre Hpre' Hne. cbv zeta.
  destruct (files w !! os_path_join root_dir' [pre]) as [XY|] eqn:Hfile.
  - by eapply create_XY_reuse.
  - apply String.eqb_neq in Hne.
    unfold create_XY, io_bind, lift, np_load.
    rewrite Hpre', Hne, Hfile. simpl. eauto.
Qed.

Lemma assembled_array_is_never_saved_witness :
  let first :=
    create_XY Fixture.conflict Fixture.variables (Fixture.libs Data.float64)
      Fixture.config "root" "root" Fixture.polygons Fixture.events
      Fixture.disk in
  first.1
  = Raise (TypeError "fill_XY() missing 1 required positional argument: 'out_dir'")
  ∧ files first.2 = files Fixture.disk
  ∧ ∃ e,
      (create_XY Fixture.conflict Fixture.variables
         (Fixture.libs Data.float64) (Fixture.config_of Fixture.reuse)
         "root" "root" Fixture.polygons Fixture.events first.2).1
      = Raise e.
Proof.
  destruct (assembled_array_is_never_saved Fixture.conflict
              Fixture.variables (Fixture.libs Data.float64) Fixture.config
              "root" "root" Fixture.polygons Fixture.events Fixture.disk
              [("rainfall", "rainfall.nc,mean")] false)
    as (Hraise & Hfiles & _ & Hsecond); [reflexivity ..|].
  split; [exact Hraise|]. split; [exact Hfiles|].
  apply (Hsecond (Fixture.config_of Fixture.reuse) "root" "root" "XY.npy");
    [reflexivity | discriminate].
Defined.

(** C10. [create_X] decides on the entry XY of the section pre_calc
    and on nothing else. When that entry is not empty the function
    loads the file named by the entry X of the same section, whatever
    the entry XY names. When the entry XY is empty the function takes
    the assembling branch, whatever the entry X names, and that branch
    never gives an array: its call of [fill_XY] lacks out_dir, so for
    a cfg-file that has the section data and the flag verbose the
    function raises a TypeError; nothing is loaded or saved. *)
Theorem create_X_never_assembles {Geom C}
    (conflict : Data.conflict_py Geom C)
    (variables : Data.variables_py Geom) (libs : Data.geo_libs Geom)
    (config : ConfigParser) (out_dir root_dir : string)
    (polygon_gdf : Data.GeoDataFrame Geom) (conflict_gdf : C)
    (w : world Geom) (pre_XY : string) :
  get config "pre_calc" "XY" = Ok pre_XY →
  let run :=
    create_X conflict variables libs config out_dir root_dir polygon_gdf
      conflict_gdf w in
  (pre_XY ≠ "" →
     ∀ pre_X,
       get config "pre_calc" "X" = Ok pre_X →
       run = np_load (os_path_join root_dir [pre_X]) w
       ∧ log run.2 = log w ++ [NpLoad (os_path_join root_dir [pre_X])])
  ∧ (pre_XY = "" →
       (∀ X, run.1 ≠ Ok X)
       ∧ run.2 = w
       ∧ (∀ vars verbose,
            items config "data" = Ok vars →
            getboolean config "general" "verbose" = Ok verbose →
            run.1
            = Raise (TypeError "fill_XY() missing 1 required positional argument: 'out_dir'"))).
Proof.
  intros HXY run. subst run. split.
  - intros Hne pre_X HX. apply String.eqb_neq in Hne.
    unfold create_X, io_bind, lift. by rewrite HXY, Hne, HX.
  - intros ->. unfold create_X, io_bind, lift. rewrite HXY. simpl.
    destruct (Data.initiate_X_data config) as [X0|e] eqn:Hinit; simpl.
    + done.
    + split; [done|]. split; [done|].
      intros vars verbose Hitems Hverbose.
      unfold Data.initiate_X_data in Hinit.
      by rewrite Hitems, Hverbose in Hinit.
Qed.

Lemma create_X_never_assembles_witness :
  (create_X Fixture.conflict Fixture.variables (Fixture.libs Data.float64)
     (Fixture.config_of Fixture.reuse) "out" "root" Fixture.polygons
     Fixture.events Fixture.disk
   = np_load "root/X.npy" Fixture.disk)
  ∧ (create_X Fixture.conflict Fixture.variables
       (Fixture.libs Data.float64) Fixture.config "out" "root"
       Fixture.polygons Fixture.events Fixture.disk).1
    = Raise (TypeError "fill_XY() missing 1 required positional argument: 'out_dir'").
Proof.
  split.
  - destruct (create_X_never_assembles Fixture.conflict Fixture.variables
                (Fixture.libs Data.float64)
                (Fixture.config_of Fixture.reuse) "out" "root"
                Fixture.polygons Fixture.events Fixture.disk "XY.npy")
      as [Hreuse _]; [reflexivity|].
    apply (Hreuse ltac:(discriminate) "X.npy" eq_refl).
  - destruct (create_X_never_assembles Fixture.conflict Fixture.variables
                (Fixture.libs Data.float64) Fixture.config "out" "root"
                Fixture.polygons Fixture.events Fixture.disk "")
      as [_ Hassemble]; [reflexivity|].
    destruct (Hassemble eq_refl) as (_ & _ & Hraise).
    apply (Hraise [("rainfall", "rainfall.nc,mean")] false); reflexivity.
Defined.

(** On the machine of the fixture the array that was saved as X.npy
    comes back. *)
Example create_X_reuse :
  (create_X Fixture.conflict Fixture.variables (Fixture.libs Data.float64)
     (Fixture.config_of Fixture.reuse) "out" "root" Fixture.polygons
     Fixture.events Fixture.disk).1
  = Ok Fixture.X.
Proof. reflexivity. Qed.
End Reuse.

(** ** evaluation.py: get_average_hit *)

Module AverageHit.
Import Evaluation.

Section facts.
Context {Geom : Type}.
Implicit Types (df : list test_row) (m : gmap Z nat) (h : gmap Z Z).

Lemma value_counts_from df m id :
  fold_left (λ m r, <[ID r := S (default 0%nat (m !! ID r))]> m) df m !! id
  = match appearances id df with
    | O => m !! id
    | S n => Some (S n + default 0 (m !! id))%nat
    end.
Proof.
  revert m. induction df as [|r df IH]; intros m; [done|].
  simpl. rewrite IH. unfold appearances. rewrite filter_cons.
  destruct (decide (ID r = id)) as [->|Hne]; simpl.
  - rewrite lookup_insert_eq. simpl.
    destruct (length _); f_equal; lia.
  - by rewrite lookup_insert_ne.
Qed.

Lemma value_counts_lookup df id :
  value_counts df !! id
  = match appearances id df with
    | O => None
    | S n => Some (S n)
    end.
Proof.
  unfold value_counts. rewrite value_counts_from, lookup_empty. simpl.
  destruct (appearances id df); [done|]. f_equal. lia.
Qed.

Lemma groupby_sum_from df h id :
  fold_left (λ acc r, <[ID r := default 0 (acc !! ID r) + overall_hit r]> acc) df h !! id
  = match appearances id df with
    | O => h !! id
    | S _ => Some (default 0 (h !! id) + hits id df)
    end.
Proof.
  revert h. induction df as [|r df IH]; intros h; [done|].
  simpl. rewrite IH. unfold appearances, hits. rewrite filter_cons.
  destruct (decide (ID r = id)) as [->|Hne]; simpl.
  - rewrite lookup_insert_eq. simpl.
    destruct (length _) eqn:Hlen.
    + apply length_zero_iff_nil in Hlen. rewrite Hlen. simpl. f_equal. lia.
    + f_equal. lia.
  - by rewrite lookup_insert_ne.
Qed.

Lemma groupby_sum_lookup df id :
  groupby_sum df !! id
  = match appearances id df with
    | O => None
    | S _ => Some (hits id df)
    end.
Proof.
  unfold groupby_sum. rewrite groupby_sum_from, lookup_empty. simpl.
  by destruct (appearances id df).
Qed.

(** The merged frame has one entry per identifier that appears. *)
Lemma df_temp_lookup df id :
  merge_on_ID (value_counts df) (groupby_sum df) !! id
  = match appearances id df with
    | O => None
    | S n => Some (S n, hits id df)
    end.
Proof.
  unfold merge_on_ID. rewrite map_lookup_zip_with.
  rewrite value_counts_lookup, groupby_sum_lookup.
  by destruct (appearances id df).
Qed.

Lemma appearances_pos df id :
  id ∈ map ID df ↔ (0 < appearances id df)%nat.
Proof.
  unfold appearances. induction df as [|r df IH]; simpl.
  - split; [intros H; by apply elem_of_nil in H | lia].
  - rewrite filter_cons, elem_of_cons.
    destruct (decide (ID r = id)) as [->|Hne]; simpl.
    + split; [lia | by left].
    + rewrite <- IH. split; [intros [?|?]; congruence || done | by right].
Qed.

Lemma merge_left_rows (global_df : list (Z * Geom)) id n t row :
  row ∈ merge_left global_df (id, (n, t)) →
  hit_ID row = id ∧ ID_count row = n ∧ total_hits row = t
  ∧ average_hit row = divide t n.
Proof.
  unfold merge_left.
  destruct (filter _ global_df) as [|g gs].
  - intros ->%list_elem_of_singleton. by simpl.
  - intros (g' & -> & _)%list_elem_of_fmap. by simpl.
Qed.

Lemma merge_left_nonempty (global_df : list (Z * Geom)) idnt :
  ∃ row, row ∈ merge_left global_df idnt.
Proof.
  destruct idnt as [id [n t]]. unfold merge_left.
  destruct (filter _ global_df) as [|g gs]; eexists; simpl; left.
Qed.

Lemma df_hit_rows df (global_df : list (Z * Geom)) row :
  row ∈ (get_average_hit df global_df).1 ↔
  ∃ n, appearances (hit_ID row) df = S n
       ∧ row ∈ merge_left global_df (hit_ID row, (S n, hits (hit_ID row) df)).
Proof.
  unfold get_average_hit. simpl.
  rewrite list_elem_of_In, in_flat_map. split.
  - intros ([id [n t]] & Hin%list_elem_of_In & Hrow%list_elem_of_In).
    apply elem_of_map_to_list in Hin. rewrite df_temp_lookup in Hin.
    pose proof (merge_left_rows _ _ _ _ _ Hrow) as (Hid & _).
    destruct (appearances id df) as [|k] eqn:Hk; [done|].
    injection Hin as <- <-. rewrite Hid, Hk. eauto.
  - intros (n & Hn & Hrow). exists (hit_ID row, (S n, hits (hit_ID row) df)).
    split; [|by apply list_elem_of_In].
    apply list_elem_of_In, elem_of_map_to_list.
    by rewrite df_temp_lookup, Hn.
Qed.
End facts.

(** C7. The frame returned by [get_average_hit] has a row for every
    identifier that appears in the test rows of the runs. Every row of
    the frame belongs to an identifier that appears at least once, and
    carries its number of appearances, its number of hits and their
    quotient as average hit; an identifier that never appears has no
    row. A row with two appearances and one hit has the average 1/2. *)
Theorem get_average_hit_per_polygon {Geom} (df : list test_row)
    (global_df : list (Z * Geom)) :
  let df_hit := (get_average_hit df global_df).1 in
  (∀ id, id ∈ map ID df → ∃ row, row ∈ df_hit ∧ hit_ID row = id)
  ∧ (∀ row, row ∈ df_hit →
       (0 < appearances (hit_ID row) df)%nat
       ∧ ID_count row = appearances (hit_ID row) df
       ∧ total_hits row = hits (hit_ID row) df
       ∧ average_hit row = divide (total_hits row) (ID_count row))
  ∧ (∀ id, appearances id df = 0%nat → ∀ row, row ∈ df_hit → hit_ID row ≠ id)
  ∧ (∀ row, row ∈ df_hit →
       appearances (hit_ID row) df = 2%nat → hits (hit_ID row) df = 1 →
       average_hit row = (1 # 2)%Q).
Proof.
  intros df_hit.
  assert (Hrows : ∀ row, row ∈ df_hit →
       (0 < appearances (hit_ID row) df)%nat
       ∧ ID_count row = appearances (hit_ID row) df
       ∧ total_hits row = hits (hit_ID row) df
       ∧ average_hit row = divide (total_hits row) (ID_count row)).
  { intros row (n & Hn & Hrow)%df_hit_rows.
    apply merge_left_rows in Hrow as (_ & Hc & Ht & Ha).
    rewrite Hn, Hc, Ht. repeat split; [lia|done]. }
  repeat split.
  - intros id Hid. apply appearances_pos in Hid.
    destruct (appearances id df) as [|n] eqn:Hn; [lia|].
    destruct (merge_left_nonempty global_df (id, (S n, hits id df)))
      as [row Hrow].
    pose proof (merge_left_rows _ _ _ _ _ Hrow) as (Hid' & _).
    exists row. split; [|done]. apply df_hit_rows. exists n.
    by rewrite Hid'.
  - by apply Hrows.
  - by apply Hrows.
  - by apply Hrows.
  - by apply Hrows.
  - intros id Hid row Hrow <-. apply Hrows in Hrow. lia.
  - intros row Hrow H2 H1. apply Hrows in Hrow as (_ & Hc & Ht & ->).
    by rewrite Hc, Ht, H2, H1.
Qed.

Lemma get_average_hit_per_polygon_witness :
  let df_hit := (get_average_hit Fixture.test_rows Fixture.global_df).1 in
  ∃ row, row ∈ df_hit ∧ hit_ID row = 1 ∧ average_hit row = (1 # 2)%Q.
Proof.
  intros df_hit.
  destruct (get_average_hit_per_polygon Fixture.test_rows Fixture.global_df)
    as (Hall & _ & _ & Hhalf).
  destruct (Hall 1) as (row & Hrow & Hid).
  - vm_compute. left.
  - exists row. split; [done|]. split; [done|].
    apply Hhalf; [done | by rewrite Hid | by rewrite Hid].
Defined.
End AverageHit.

(** ** machine_learning.py and runner.py: unsupported scaler or model *)

Module Setup.
Import MachineLearning.

Lemma not_supported_scaler (s : string) :
  s ∉ supported_scalers →
  (s =? "MinMaxScaler")%string = false
  ∧ (s =? "StandardScaler")%string = false
  ∧ (s =? "RobustScaler")%string = false
  ∧ (s =? "QuantileTransformer")%string = false.
Proof.
  intros H. repeat split; apply String.eqb_neq; intros ->; apply H;
    unfold supported_scalers; set_solver.
Qed.

Lemma not_supported_model (m : string) :
  m ∉ supported_models →
  (m =? "NuSVC")%string = false
  ∧ (m =? "KNeighborsClassifier")%string = false
  ∧ (m =? "RFClassifier")%string = false.
Proof.
  intros H. repeat split; apply String.eqb_neq; intros ->; apply H;
    unfold supported_models; set_solver.
Qed.

Lemma define_scaling_unsupported config s :
  get config "machine_learning" "scaler" = Ok s →
  s ∉ supported_scalers →
  define_scaling config = Raise (ValueError no_scaler_msg).
Proof.
  intros Hs (E1 & E2 & E3 & E4)%not_supported_scaler.
  unfold define_scaling. rewrite Hs. simpl. by rewrite E1, E2, E3, E4.
Qed.

Lemma define_model_unsupported config m :
  get config "machine_learning" "model" = Ok m →
  m ∉ supported_models →
  define_model config = Raise (ValueError no_model_msg).
Proof.
  intros Hm (E1 & E2 & E3)%not_supported_model.
  unfold define_model. rewrite Hm. simpl. by rewrite E1, E2, E3.
Qed.

(** A supported name gives a scaler, so [define_model] is reached. *)
Lemma define_scaling_cases config s v :
  get config "machine_learning" "scaler" = Ok s →
  getboolean config "general" "verbose" = Ok v →
  (∃ sc, define_scaling config = Ok sc)
  ∨ define_scaling config = Raise (ValueError no_scaler_msg).
Proof.
  intros Hs Hv. unfold define_scaling. rewrite Hs. simpl.
  repeat (destruct (_ =? _)%string; [simpl; rewrite Hv; simpl; eauto|]).
  by right.
Qed.

Lemma prepare_ML_unsupported config s m v :
  get config "machine_learning" "scaler" = Ok s →
  get config "machine_learning" "model" = Ok m →
  getboolean config "general" "verbose" = Ok v →
  s ∉ supported_scalers ∨ m ∉ supported_models →
  ∃ msg, Pipeline.prepare_ML config = Raise (ValueError msg).
Proof.
  intros Hs Hm Hv Hbad. unfold Pipeline.prepare_ML.
  destruct (define_scaling_cases config s v Hs Hv) as [[sc Hsc]|Hsc].
  - destruct Hbad as [Hbad|Hbad].
    + by rewrite (define_scaling_unsupported config s) in Hsc.
    + rewrite Hsc. simpl.
      rewrite (define_model_unsupported config m) by done. eauto.
  - rewrite Hsc. eauto.
Qed.

(** The text of the TypeError of line 42 of runner.py. *)
Example create_XY_call_message :
  missing_positional "create_XY" Pipeline.create_XY_parameters 3
  = TypeError "create_XY() missing 2 required positional arguments: 'polygon_gdf' and 'conflict_gdf'".
Proof. reflexivity. Qed.

(** [main] never completes, whatever the package and the cfg-file. *)
Lemma main_never_completes {Geom C} (pkg : Runner.package Geom C)
    (cfg : string) :
  (Runner.main pkg cfg).2 ≠ Ok ().
Proof.
  unfold Runner.main, Runner.tbind, Runner.call, Runner.quiet.
  destruct (Runner.initiate_setup pkg cfg) as [[config out_dir]|e]; [|done].
  destruct (getboolean config "general" "verbose") as [v|e]; [|done].
  destruct (Runner.select pkg config out_dir) as [[[[c g] a] d]|e]; [|done].
  by destruct (Runner.plot_active_polys pkg c a config out_dir).
Qed.

(** C4. A configuration that names a scaler or a model outside the
    supported ones makes [prepare_ML] raise a ValueError. [main] does
    not deliver this error: it calls [select] and [plot_active_polys]
    first, and then stops with the TypeError of its call of
    [create_XY], which passes three arguments for five parameters.
    This call comes before [prepare_ML], so the configuration error
    is not raised, whatever the package does; and when the package
    succeeds, the TypeError comes after the data was selected. *)
Theorem unsupported_choice_is_not_reported (config : ConfigParser)
    (s m : string) (v : bool) :
  get config "machine_learning" "scaler" = Ok s →
  get config "machine_learning" "model" = Ok m →
  getboolean config "general" "verbose" = Ok v →
  s ∉ supported_scalers ∨ m ∉ supported_models →
  (∃ msg, Pipeline.prepare_ML config = Raise (ValueError msg))
  ∧ ∀ {Geom C} (pkg : Runner.package Geom C) cfg out_dir
      conflict_gdf extent_gdf extent_active_polys_gdf global_df,
      Runner.initiate_setup pkg cfg = Ok (config, out_dir) →
      Runner.select pkg config out_dir
      = Ok (conflict_gdf, extent_gdf, extent_active_polys_gdf, global_df) →
      Runner.plot_active_polys pkg conflict_gdf extent_active_polys_gdf
        config out_dir = Ok () →
      Runner.main pkg cfg
      = ([Runner.InitiateSetup cfg; Runner.Select; Runner.PlotActivePolys],
         Raise (TypeError "create_XY() missing 2 required positional arguments: 'polygon_gdf' and 'conflict_gdf'")).
Proof.
  intros Hs Hm Hv Hbad. split.
  - by apply (prepare_ML_unsupported config s m v).
  - intros Geom C pkg cfg out_dir conflict_gdf extent_gdf
      extent_active_polys_gdf global_df Hsetup Hselect Hplot.
    unfold Runner.main, Runner.tbind, Runner.call, Runner.quiet.
    by rewrite Hsetup, Hv, Hselect, Hplot.
Qed.

Lemma unsupported_choice_is_not_reported_witness :
  (∃ msg,
     Pipeline.prepare_ML (Fixture.config_of Fixture.unsupported)
     = Raise (ValueError msg))
  ∧ Runner.main Fixture.package "unsupported.cfg"
    = ([Runner.InitiateSetup "unsupported.cfg"; Runner.Select;
        Runner.PlotActivePolys],
       Raise (TypeError "create_XY() missing 2 required positional arguments: 'polygon_gdf' and 'conflict_gdf'")).
Proof.
  destruct (unsupported_choice_is_not_reported
              (Fixture.config_of Fixture.unsupported)
              "MaxAbsScaler" "RFClassifier" false)
    as [Hprep Hmain]; [reflexivity .. | |].
  { left. unfold supported_scalers. intros H.
    repeat (apply elem_of_cons in H as [H|H]; [discriminate|]).
    by apply elem_of_nil in H. }
  split; [exact Hprep|].
  apply (Hmain _ _ Fixture.package "unsupported.cfg" "out" Fixture.events
           Fixture.polygons Fixture.polygons Fixture.global_df);
    reflexivity.
Defined.
End Setup.

(** ** data.py: the layout of the stores *)

Module Layout.
Import Data.

Section facts.
Context {Geom : Type}.
Implicit Types (d : dict (list (cell Geom))).

Lemma dict_set_fresh d k v :
  k ∉ map fst d → dict_set d k v = d ++ [(k, v)].
Proof.
  induction d as [|[k' v'] d IH]; simpl; intros Hk; [done|].
  apply not_elem_of_cons in Hk as [Hne Hk].
  destruct (String.eqb_spec k' k) as [->|_]; [done|]. by rewrite IH.
Qed.

Lemma dict_set_present d k :
  Forall (λ kv, snd kv = []) d → k ∈ map fst d → dict_set d k [] = d.
Proof.
  induction 1 as [|[k' v'] d Hv Hd IH]; simpl; intros Hk.
  - by apply elem_of_nil in Hk.
  - simpl in Hv. subst v'.
    destruct (String.eqb_spec k' k) as [->|Hne]; [done|].
    apply elem_of_cons in Hk as [->|Hk]; [done|]. by rewrite IH.
Qed.

(** Assigning an empty series to new keys, one after the other,
    appends the columns in that order. *)
Lemma columns_appended (keys : list string) d :
  NoDup keys → (∀ k, k ∈ keys → k ∉ map fst d) →
  fold_left (λ XY k, dict_set XY k []) keys d
  = d ++ map (λ k, (k, [])) keys.
Proof.
  revert d. induction keys as [|k keys IH]; intros d Hnd Hnew; simpl.
  - by rewrite app_nil_r.
  - apply NoDup_cons in Hnd as [Hk Hnd].
    rewrite dict_set_fresh by (apply Hnew; left).
    rewrite IH; [by rewrite <- app_assoc | done |].
    intros k' Hk'. rewrite map_app. simpl.
    intros [Hin| ->%list_elem_of_singleton]%elem_of_app; [|done].
    revert Hin. apply Hnew. by right.
Qed.

Lemma variables_as_keys (data : list (string * string)) d :
  fold_left (λ XY key, dict_set XY (fst key) []) data d
  = fold_left (λ XY k, dict_set XY k []) (map fst data) d.
Proof.
  revert d. induction data as [|kv data IH]; intros d; simpl; [done|].
  apply IH.
Qed.

(** Both functions set their keys one after the other. *)
Lemma initiate_X_data_keys config data verbose :
  items config "data" = Ok data →
  getboolean config "general" "verbose" = Ok verbose →
  initiate_X_data (Geom := Geom) config
  = Ok (fold_left (λ XY k, dict_set XY k [])
          (["poly_ID"; "poly_geometry"] ++ map fst data
           ++ ["conflict_t_min_1"; "conflict_t_min_1_nb"]) []).
Proof.
  intros Hdata Hv. unfold initiate_X_data. rewrite Hdata.
  cbv beta iota delta [Py.bind]. rewrite Hv. f_equal.
  rewrite variables_as_keys, !fold_left_app. done.
Qed.

Lemma initiate_XY_data_keys config data verbose :
  items config "data" = Ok data →
  getboolean config "general" "verbose" = Ok verbose →
  initiate_XY_data (Geom := Geom) config
  = Ok (fold_left (λ XY k, dict_set XY k [])
          (["poly_ID"; "poly_geometry"] ++ map fst data
           ++ ["conflict_t_min_1"; "conflict_t_min_1_nb"; "conflict"]) []).
Proof.
  intros Hdata Hv. unfold initiate_XY_data. rewrite Hdata.
  cbv beta iota delta [Py.bind]. rewrite Hv. f_equal.
  rewrite variables_as_keys, !fold_left_app. done.
Qed.

Lemma columns_stay_empty (keys : list string) d :
  Forall (λ kv, snd kv = []) d →
  Forall (λ kv, snd kv = []) (fold_left (λ XY k, dict_set XY k []) keys d).
Proof.
  revert d. induction keys as [|k keys IH]; intros d Hd; [done|].
  simpl. apply IH. by apply Assembly.dict_set_empty.
Qed.

Lemma columns_distinct (keys : list string) d :
  NoDup (map fst d) →
  NoDup (map fst (fold_left (λ XY k, dict_set XY k []) keys d)).
Proof.
  revert d. induction keys as [|k keys IH]; intros d Hd; [done|].
  simpl. apply IH. by apply Assembly.dict_set_NoDup.
Qed.

Lemma columns_are_set (keys : list string) d k :
  k ∈ map fst (fold_left (λ XY k, dict_set XY k []) keys d)
  ↔ k ∈ map fst d ∨ k ∈ keys.
Proof.
  revert d. induction keys as [|k' keys IH]; intros d; simpl.
  - rewrite elem_of_nil. tauto.
  - rewrite IH, Assembly.dict_set_keys, elem_of_cons.
    case_bool_decide as Hin.
    + split; [tauto|]. intros [?|[->|?]]; auto.
    + rewrite elem_of_app, list_elem_of_singleton. tauto.
Qed.

Lemma all_keys_distinct (keys : list string) :
  NoDup keys → (∀ k, k ∈ keys → k ∉ fixed_keys) →
  NoDup (["poly_ID"; "poly_geometry"] ++ keys
         ++ ["conflict_t_min_1"; "conflict_t_min_1_nb"; "conflict"]).
Proof.
  intros Hnd Hnew.
  assert (Hperm : ["poly_ID"; "poly_geometry"] ++ keys
                  ++ ["conflict_t_min_1"; "conflict_t_min_1_nb"; "conflict"]
                  ≡ₚ fixed_keys ++ keys).
  { unfold fixed_keys. simpl. do 2 f_equiv.
    by rewrite Permutation_app_comm. }
  rewrite Hperm. apply NoDup_app. split_and!; [Assembly.in_list| |done].
  intros k Hk Hin. by apply (Hnew k).
Qed.
End facts.

(** X1. When the variables of the cfg-file have distinct names, none
    of them the name of a fixed column, the store of
    [initiate_X_data] has the empty columns poly_ID, poly_geometry,
    the variables in the order of the cfg-file, conflict_t_min_1 and
    conflict_t_min_1_nb, and the store of [initiate_XY_data] has the
    same columns followed by conflict. *)
Theorem stores_layout {Geom} (config : ConfigParser)
    (data : list (string * string)) (verbose : bool) :
  items config "data" = Ok data →
  getboolean config "general" "verbose" = Ok verbose →
  NoDup (map fst data) →
  (∀ k, k ∈ map fst data → k ∉ fixed_keys) →
  let X : dict (list (cell Geom)) :=
    [("poly_ID", []); ("poly_geometry", [])]
    ++ map (λ kv, (fst kv, [])) data
    ++ [("conflict_t_min_1", []); ("conflict_t_min_1_nb", [])] in
  initiate_X_data config = Ok X
  ∧ initiate_XY_data config = Ok (X ++ [("conflict", [])]).
Proof.
  intros Hdata Hv Hnd Hnew X.
  pose proof (all_keys_distinct (map fst data) Hnd Hnew) as Hall.
  split.
  - rewrite (initiate_X_data_keys config data verbose) by done. f_equal.
    rewrite columns_appended.
    + subst X. simpl. by rewrite map_app, map_map.
    + rewrite !app_assoc in Hall. rewrite !app_assoc.
      replace ["conflict_t_min_1"; "conflict_t_min_1_nb"; "conflict"]
        with (["conflict_t_min_1"; "conflict_t_min_1_nb"] ++ ["conflict"])
        in Hall by done.
      rewrite app_assoc in Hall. by apply NoDup_app in Hall as [? _].
    + intros k _ Hk. by apply elem_of_nil in Hk.
  - rewrite (initiate_XY_data_keys config data verbose) by done. f_equal.
    rewrite columns_appended; [|done|].
    + subst X. simpl. rewrite !map_app, map_map. simpl.
      by rewrite <- !app_assoc.
    + intros k _ Hk. by apply elem_of_nil in Hk.
Qed.

Lemma stores_layout_witness :
  initiate_X_data (Geom := Fixture.interval) Fixture.config
  = Ok [("poly_ID", []); ("poly_geometry", []); ("rainfall", []);
        ("conflict_t_min_1", []); ("conflict_t_min_1_nb", [])]
  ∧ initiate_XY_data (Geom := Fixture.interval) Fixture.config
    = Ok [("poly_ID", []); ("poly_geometry", []); ("rainfall", []);
          ("conflict_t_min_1", []); ("conflict_t_min_1_nb", []);
          ("conflict", [])].
Proof.
  apply (stores_layout (Geom := Fixture.interval) Fixture.config
           [("rainfall", "rainfall.nc,mean")] false).
  - reflexivity.
  - reflexivity.
  - Assembly.in_list.
  - intros k [->|[]%elem_of_nil]%elem_of_cons. vm_compute.
    intros H. repeat (apply elem_of_cons in H as [H|H]; [discriminate|]).
    by apply elem_of_nil in H.
Defined.

(** X2. When a variable of the cfg-file is itself called conflict
    (and none is called conflict_t_min_1_nb), [initiate_XY_data]
    adds no column for the label: it returns the store of
    [initiate_X_data], whose last column is conflict_t_min_1_nb. *)
Theorem variable_named_conflict {Geom} (config : ConfigParser)
    (data : list (string * string)) (verbose : bool) :
  items config "data" = Ok data →
  getboolean config "general" "verbose" = Ok verbose →
  "conflict" ∈ map fst data →
  "conflict_t_min_1_nb" ∉ map fst data →
  ∃ XY : dict (list (cell Geom)),
    initiate_XY_data config = Ok XY
    ∧ initiate_X_data config = Ok XY
    ∧ List.last (map fst XY) "" = "conflict_t_min_1_nb".
Proof.
  intros Hdata Hv Hc Hnb.
  rewrite (initiate_X_data_keys config data verbose) by done.
  rewrite (initiate_XY_data_keys config data verbose) by done.
  eexists. split; [|split; [reflexivity|]].
  - f_equal.
    replace ["conflict_t_min_1"; "conflict_t_min_1_nb"; "conflict"]
      with (["conflict_t_min_1"; "conflict_t_min_1_nb"] ++ ["conflict"])
      by done.
    rewrite !app_assoc, (fold_left_app _ _ ["conflict"]). cbn [fold_left].
    apply dict_set_present.
    + apply columns_stay_empty. constructor.
    + apply columns_are_set. right. rewrite !elem_of_app. auto.
  - replace (["poly_ID"; "poly_geometry"] ++ map fst data
             ++ ["conflict_t_min_1"; "conflict_t_min_1_nb"])
      with ((["poly_ID"; "poly_geometry"] ++ map fst data
             ++ ["conflict_t_min_1"]) ++ ["conflict_t_min_1_nb"])
      by (by rewrite <- !app_assoc).
    rewrite fold_left_app. cbn [fold_left]. rewrite Assembly.dict_set_keys.
    rewrite bool_decide_eq_false_2.
    + cbv iota. apply last_last.
    + rewrite columns_are_set, !elem_of_app.
      intros [[]%elem_of_nil|[H|[H|H]]]; [| done |].
      * repeat (apply elem_of_cons in H as [H|H]; [discriminate|]).
        by apply elem_of_nil in H.
      * apply list_elem_of_singleton in H. discriminate.
Qed.

Lemma variable_named_conflict_witness :
  ∃ XY : dict (list (cell Fixture.interval)),
    initiate_XY_data (Fixture.config_of Fixture.conflict_variable) = Ok XY
    ∧ initiate_X_data (Fixture.config_of Fixture.conflict_variable) = Ok XY
    ∧ List.last (map fst XY) "" = "conflict_t_min_1_nb".
Proof.
  apply (variable_named_conflict (Fixture.config_of Fixture.conflict_variable)
           [("conflict", "conflict.nc,mean"); ("rainfall", "rainfall.nc,mean")]
           false).
  - reflexivity.
  - reflexivity.
  - Assembly.in_list.
  - vm_compute. intros H.
    repeat (apply elem_of_cons in H as [H|H]; [discriminate|]).
    by apply elem_of_nil in H.
Defined.
End Layout.

(** ** data.py: the period of the reference mode, and the projection *)

Module Period.
Import Data.

Section facts.
Context {Geom C : Type}.
Context (G : gmap string (pyobj C)).
Context (conflict : conflict_py Geom C).
Context (variables : variables_py Geom).
Context (libs : geo_libs Geom).
Implicit Types (XY : dict (list (cell Geom))).

(** A store of empty columns becomes an array without rows. *)
Lemma from_dict_empty_columns XY :
  Forall (λ kv, snd kv = []) XY →
  from_dict_to_numpy XY = mk_ndarray (length XY) [].
Proof.
  intros Hempty. unfold from_dict_to_numpy.
  assert (Hn : foldr (λ kv m, Nat.max (length (snd kv)) m) 0%nat XY = 0%nat).
  { induction Hempty as [|[k v] XY Hv _ IH]; [done|].
    simpl in *. by rewrite Hv, IH. }
  by rewrite Hn.
Qed.

(** When all columns have [p] entries the array has [p] rows. *)
Lemma from_dict_rows XY (p : nat) :
  XY ≠ [] → Forall (λ kv, length (snd kv) = p) XY →
  len (from_dict_to_numpy XY) = p.
Proof.
  intros Hne Hall. unfold from_dict_to_numpy, len. simpl.
  rewrite length_map, length_seq.
  destruct Hall as [|[k v] XY Hv Hall]; [done|]. clear Hne.
  simpl in *. rewrite Hv.
  induction Hall as [|[k' v'] XY Hv' _ IH]; simpl in *; lia.
Qed.

Lemma from_dict_wf XY : wf_ndarray (from_dict_to_numpy XY).
Proof.
  unfold wf_ndarray, from_dict_to_numpy. simpl.
  apply Forall_forall. intros r (i & -> & _)%list_elem_of_fmap.
  by rewrite length_map.
Qed.

Lemma arange_empty start stop : stop ≤ start → arange start stop = [].
Proof.
  intros Hle. unfold arange.
  by replace (Z.to_nat (stop - start)) with 0%nat by lia.
Qed.

Lemma arange_one start : arange start (start + 1) = [start].
Proof.
  unfold arange. replace (start + 1 - start) with 1 by lia.
  simpl. f_equal. lia.
Qed.
End facts.

(** X3. In reference mode a period that ends before it starts makes
    [fill_XY] raise an IndexError, whatever the store and the data:
    the period is empty, and its first year is read before any year
    is entered. *)
Theorem empty_period_raises_IndexError {Geom C}
    (G : gmap string (pyobj C)) (conflict : conflict_py Geom C)
    (variables : variables_py Geom) (libs : geo_libs Geom)
    (XY : dict (list (cell Geom))) (config : ConfigParser)
    (root_dir : string) (conflict_data : C)
    (polygon_gdf : GeoDataFrame Geom) (out_dir : string)
    (proj_year : option Z) (y_start y_end : Z) :
  getint config "settings" "y_start" = Ok y_start →
  getint config "settings" "y_end" = Ok y_end →
  y_end < y_start →
  fill_XY G conflict variables libs XY config root_dir conflict_data
    polygon_gdf out_dir false proj_year
  = Raise IndexError.
Proof.
  intros Hs He Hlt. unfold fill_XY. simpl. rewrite Hs, He. simpl.
  by rewrite arange_empty by lia.
Qed.

Lemma empty_period_raises_IndexError_witness :
  fill_XY module_globals Fixture.conflict Fixture.variables
    (Fixture.libs float64) [] (Fixture.config_of Fixture.backwards) "root"
    Fixture.events Fixture.polygons "out" false None
  = Raise IndexError.
Proof.
  apply (empty_period_raises_IndexError _ _ _ _ _ _ _ _ _ _ _ 2002 2000);
    [reflexivity | reflexivity | lia].
Defined.

(** X4. In data.py as it is, [fill_XY] in reference mode returns for
    the store of [initiate_XY_data] exactly when the period is a
    single year, and the array it then returns has one column per key
    of the store and no row. *)
Theorem reference_mode_returns_for_one_year_only {Geom C}
    (conflict : conflict_py Geom C) (variables : variables_py Geom)
    (libs : geo_libs Geom) (config : ConfigParser) (root_dir : string)
    (conflict_data : C) (polygon_gdf : GeoDataFrame Geom)
    (out_dir : string) (data : list (string * string))
    (y_start y_end : Z) (XY0 : dict (list (cell Geom))) :
  items config "data" = Ok data →
  initiate_XY_data config = Ok XY0 →
  getint config "settings" "y_start" = Ok y_start →
  getint config "settings" "y_end" = Ok y_end →
  let run :=
    fill_XY module_globals conflict variables libs XY0 config root_dir
      conflict_data polygon_gdf out_dir false None in
  (∀ a, run = Ok a → y_start = y_end)
  ∧ (y_start = y_end → run = Ok (mk_ndarray (length XY0) [])).
Proof.
  intros Hdata Hinit Hs He run. split.
  - intros a Hrun.
    destruct (Z.lt_trichotomy y_start y_end) as [Hlt|[Heq|Hgt]]; [|done|].
    + exfalso.
      by eapply (Assembly.reference_assembly_never_returns conflict variables
                   libs config root_dir conflict_data polygon_gdf out_dir
                   data y_start y_end XY0).
    + subst run.
      by rewrite (empty_period_raises_IndexError _ _ _ _ _ _ _ _ _ _ _
                    y_start y_end) in Hrun.
  - intros <-. subst run. unfold fill_XY. simpl. rewrite Hs, He. simpl.
    rewrite arange_one. simpl.
    destruct (Assembly.initiate_XY_data_store config data XY0)
      as [(_ & Hempty & _) _]; [done..|].
    by rewrite from_dict_empty_columns.
Qed.

Lemma reference_mode_returns_for_one_year_only_witness :
  ∃ XY0 : dict (list (cell Fixture.interval)),
    initiate_XY_data (Fixture.config_of Fixture.single_year) = Ok XY0
    ∧ fill_XY module_globals Fixture.conflict Fixture.variables
        (Fixture.libs float64) XY0 (Fixture.config_of Fixture.single_year)
        "root" Fixture.events Fixture.polygons "out" false None
      = Ok (mk_ndarray 6 []).
Proof.
  eexists. split; [reflexivity|].
  apply (reference_mode_returns_for_one_year_only Fixture.conflict
           Fixture.variables (Fixture.libs float64)
           (Fixture.config_of Fixture.single_year) "root" Fixture.events
           Fixture.polygons "out" [("rainfall", "rainfall.nc,mean")]
           2000 2000);
    reflexivity.
Defined.
End Period.

Module Projection.
Import Data.

Section facts.
Context {Geom C : Type}.
Context (G : gmap string (pyobj C)).
Context (conflict : conflict_py Geom C).
Context (variables : variables_py Geom).
Context (libs : geo_libs Geom).
Context (config : ConfigParser) (root_dir : string) (conflict_data : C).
Context (polygon_gdf : GeoDataFrame Geom).
Implicit Types (XY : dict (list (cell Geom))).

Lemma initiate_X_data_store data verbose (X0 : dict (list (cell Geom))) :
  items config "data" = Ok data →
  getboolean config "general" "verbose" = Ok verbose →
  initiate_X_data config = Ok X0 →
  fresh_store (projection_keys ++ map fst data) X0 ∧ X0 ≠ [].
Proof.
  intros Hdata Hv.
  rewrite (Layout.initiate_X_data_keys config data verbose) by done.
  intros Heq. injection Heq as <-. split; [split_and!|].
  - apply Layout.columns_distinct. Assembly.in_list.
  - apply Layout.columns_stay_empty. by repeat constructor.
  - intros k Hk%Layout.columns_are_set. unfold projection_keys.
    simpl in Hk.
    rewrite ?elem_of_app, ?elem_of_cons, ?elem_of_nil in Hk.
    rewrite !elem_of_app, !elem_of_cons. tauto.
  - intros Hnil.
    match type of Hnil with
    | ?t = [] => assert (Hin : "poly_ID" ∈ map fst t)
    end.
    { apply Layout.columns_are_set. simpl.
      rewrite ?elem_of_app, ?elem_of_cons. tauto. }
    rewrite Hnil in Hin. by apply elem_of_nil in Hin.
Qed.

Section collaborators.
Context (p : nat).
Hypothesis one_ID_per_polygon :
  length (get_poly_ID conflict polygon_gdf) = p.
Hypothesis one_geometry_per_polygon :
  length (get_poly_geometry conflict polygon_gdf config) = p.
Hypothesis one_lag_per_polygon :
  ∀ nb m,
    length (read_projected_conflict conflict polygon_gdf conflict_data
              nb m) = p.
Hypothesis one_value_per_polygon :
  ∀ key year,
    length (nc_with_float_timestamp variables polygon_gdf config
              root_dir key year) = p
    ∧ length (nc_with_continous_datetime_timestamp variables polygon_gdf
                config root_dir key year) = p.

Lemma fill_key_proj_appends m year key :
  key ∈ projection_keys ∨ readable libs config root_dir key →
  appends p
    (fill_key_proj G conflict variables libs config root_dir
       conflict_data polygon_gdf m year) key.
Proof.
  intros Hkey value. unfold fill_key_proj.
  repeat (match goal with
          | |- context [if (key =? ?s)%string then _ else _] =>
              destruct (key =? s)%string eqn:?
          end;
          [eexists; split; [|intros XY; reflexivity];
           solve [ apply one_lag_per_polygon | apply one_ID_per_polygon
                 | apply one_geometry_per_polygon ] |]).
  destruct Hkey as [Hfixed|(path & time & Hpath & Htime & Hsup)].
  { exfalso. unfold projection_keys in Hfixed.
    repeat (apply elem_of_cons in Hfixed as [->|Hfixed];
            [simpl in *; congruence|]).
    by apply elem_of_nil in Hfixed. }
  unfold fill_variable. rewrite Hpath. simpl. rewrite Htime. simpl.
  destruct (one_value_per_polygon key year) as [Hf Hd].
  destruct Hsup as [->| [->| ->]]; eexists;
    (split; [|intros XY; reflexivity]); done.
Qed.

Lemma fill_XY_proj_grows XY year :
  NoDup (map fst XY) →
  (∀ key, key ∈ map fst XY →
     key ∈ projection_keys ∨ readable libs config root_dir key) →
  ∃ XY',
    fill_XY_proj G conflict variables libs XY config root_dir
      conflict_data polygon_gdf year = Ok XY'
    ∧ column_lengths XY'
      = map (λ kn, (fst kn, (snd kn + p)%nat)) (column_lengths XY).
Proof.
  intros Hnd Hkeys. unfold fill_XY_proj.
  destruct (Assembly.columns_visited p
              (fill_key_proj G conflict variables libs config root_dir
                 conflict_data polygon_gdf
                 (neighboring_polys libs config polygon_gdf) year) [] XY)
    as (XY' & Hrun & Hcols); [done| |by exists XY'].
  intros key Hk. apply fill_key_proj_appends. by apply Hkeys.
Qed.
End collaborators.
End facts.

(** X5. In projection mode, for the store of [initiate_X_data], with
    collaborators that give one entry per polygon and variables whose
    datasets are found and have a supported time axis, [fill_XY]
    returns an array with one row per polygon and one column per key
    of the store, all rows of full length. *)
Theorem projection_has_a_row_per_polygon {Geom C}
    (G : gmap string (pyobj C)) (conflict : conflict_py Geom C)
    (variables : variables_py Geom) (libs : geo_libs Geom)
    (config : ConfigParser) (root_dir : string) (conflict_data : C)
    (polygon_gdf : GeoDataFrame Geom) (out_dir : string)
    (data : list (string * string)) (verbose : bool)
    (X0 : dict (list (cell Geom))) (p : nat) (proj_year : Z) :
  items config "data" = Ok data →
  getboolean config "general" "verbose" = Ok verbose →
  initiate_X_data config = Ok X0 →
  length (get_poly_ID conflict polygon_gdf) = p →
  length (get_poly_geometry conflict polygon_gdf config) = p →
  (∀ nb m,
     length (read_projected_conflict conflict polygon_gdf conflict_data
               nb m) = p) →
  (∀ key year,
     length (nc_with_float_timestamp variables polygon_gdf config
               root_dir key year) = p
     ∧ length (nc_with_continous_datetime_timestamp variables polygon_gdf
                 config root_dir key year) = p) →
  (∀ key, key ∈ map fst data → readable libs config root_dir key) →
  ∃ a,
    fill_XY G conflict variables libs X0 config root_dir conflict_data
      polygon_gdf out_dir true (Some proj_year) = Ok a
    ∧ len a = p
    ∧ ncols a = length X0
    ∧ wf_ndarray a.
Proof.
  intros Hdata Hv Hinit Hid Hgeom Hlag Hvalue Hread.
  destruct (initiate_X_data_store config data verbose X0)
    as [(Hnd & Hempty & Hkeys) Hne]; [done..|].
  destruct (fill_XY_proj_grows G conflict variables libs config root_dir
              conflict_data polygon_gdf p Hid Hgeom Hlag Hvalue X0 proj_year)
    as (X & Hrun & Hcols); [done| |].
  { intros key [Hk|Hk]%Hkeys%elem_of_app; [by left | right; by apply Hread]. }
  exists (from_dict_to_numpy X). unfold fill_XY. simpl. rewrite Hrun. simpl.
  split; [done|].
  assert (Hlen : length X = length X0).
  { apply (f_equal length) in Hcols. unfold column_lengths in Hcols.
    by rewrite !length_map in Hcols. }
  split_and!.
  - apply Period.from_dict_rows.
    + intros ->. destruct X0; [done|discriminate].
    + assert (Hp : Forall (λ kn : string * nat, snd kn = p) (column_lengths X)).
      { rewrite Hcols. unfold column_lengths. rewrite map_map.
        apply Forall_fmap. eapply Forall_impl; [exact Hempty|].
        intros [k v]. simpl. by intros ->. }
      unfold column_lengths in Hp. by apply Forall_fmap in Hp.
  - done.
  - apply Period.from_dict_wf.
Qed.

Lemma projection_has_a_row_per_polygon_witness :
  ∃ X0 a,
    initiate_X_data Fixture.config = Ok X0
    ∧ fill_XY module_globals Fixture.conflict Fixture.variables
        (Fixture.libs datetime64_ns) X0 Fixture.config "root" Fixture.events
        Fixture.polygons "out" true (Some 2003) = Ok a
    ∧ len a = 3%nat
    ∧ ncols a = length X0
    ∧ wf_ndarray a.
Proof.
  eexists.
  destruct (projection_has_a_row_per_polygon module_globals Fixture.conflict
              Fixture.variables (Fixture.libs datetime64_ns) Fixture.config
              "root" Fixture.events Fixture.polygons "out"
              [("rainfall", "rainfall.nc,mean")] false _ 3%nat 2003
              eq_refl eq_refl eq_refl eq_refl eq_refl)
    as (a & Hrun); [done | done | | by exists a].
  intros key [->|[]%elem_of_nil]%elem_of_cons.
  exists "root/input/rainfall.nc", datetime64_ns. split_and!; [done..|].
  right. by right.
Defined.

(** X6. Projection mode has no case for a column called conflict: on
    a store that has one, such as the store of [initiate_XY_data],
    [fill_XY] raises unless the cfg-file has a variable of that
    name. *)
Theorem projection_rejects_label_column {Geom C}
    (G : gmap string (pyobj C)) (conflict : conflict_py Geom C)
    (variables : variables_py Geom) (libs : geo_libs Geom)
    (XY : dict (list (cell Geom))) (config : ConfigParser)
    (root_dir : string) (conflict_data : C)
    (polygon_gdf : GeoDataFrame Geom) (out_dir : string)
    (proj_year : Z) (value : list (cell Geom)) (e : exn) :
  ("conflict", value) ∈ XY →
  get config "data" "conflict" = Raise e →
  ∃ e',
    fill_XY G conflict variables libs XY config root_dir conflict_data
      polygon_gdf out_dir true (Some proj_year) = Raise e'.
Proof.
  intros Hin Hget.
  destruct (fill_XY _ _ _ _ _ _ _ _ _ _ _ _) as [a|e'] eqn:Hrun; [|by exists e'].
  exfalso. unfold fill_XY in Hrun. simpl in Hrun.
  apply bind_Ok in Hrun as (X & Hrun & _). unfold fill_XY_proj in Hrun.
  apply Assembly.for_each_Ok_steps with (x := ("conflict", value)) in Hrun
    as (s1 & s2 & Hstep); [|done].
  unfold fill_key_proj, fill_variable, nc_path in Hstep. simpl in Hstep.
  rewrite Hget in Hstep.
  by destruct (get config "general" "input_dir").
Qed.

Lemma projection_rejects_label_column_witness :
  let XY0 : dict (list (cell Fixture.interval)) :=
    [("poly_ID", []); ("poly_geometry", []); ("rainfall", []);
     ("conflict_t_min_1", []); ("conflict_t_min_1_nb", []);
     ("conflict", [])] in
  initiate_XY_data Fixture.config = Ok XY0
  ∧ ∃ e',
      fill_XY module_globals Fixture.conflict Fixture.variables
        (Fixture.libs datetime64_ns) XY0 Fixture.config "root"
        Fixture.events Fixture.polygons "out" true (Some 2003) = Raise e'.
Proof.
  split; [reflexivity|].
  apply (projection_rejects_label_column module_globals Fixture.conflict
           Fixture.variables (Fixture.libs datetime64_ns) _
           Fixture.config "root" Fixture.events Fixture.polygons "out"
           2003 [] (NoOptionError "data" "conflict")).
  - do 5 right. left.
  - reflexivity.
Defined.
End Projection.

(** ** data.py: what find_neighbors returns, and rows with missing entries *)

Lemma filter_none {A} (P : A → Prop) `{∀ x, Decision (P x)} (l : list A) :
  Forall (λ x, ¬ P x) l → filter P l = [].
Proof.
  induction 1 as [|x l Hx _ IH]; [done|]. by rewrite filter_cons_False.
Qed.

Lemma filter_all {A} (P : A → Prop) `{∀ x, Decision (P x)} (l : list A) :
  Forall P l → filter P l = l.
Proof.
  induction 1 as [|x l Hx _ IH]; [done|]. by rewrite filter_cons_True, IH.
Qed.

Module Neighbours.
Import Data.

(** X7. The frame of [neighboring_polys] is square: it has one row
    and one column per polygon, both labelled with the identifiers in
    the order of the collection. *)
Theorem neighboring_polys_square {Geom} (libs : geo_libs Geom)
    (config : ConfigParser) (extent_gdf : GeoDataFrame Geom) :
  let m := neighboring_polys libs config extent_gdf in
  index m = map watprovID extent_gdf
  ∧ columns m = map watprovID extent_gdf
  ∧ length (values m) = length extent_gdf
  ∧ Forall (λ row, length row = length extent_gdf) (values m).
Proof.
  intros m. subst m. rewrite Adjacency.neighboring_polys_values.
  split; [done|]. split; [done|]. split; [by rewrite length_map|].
  apply Forall_fmap, Forall_forall. intros p _. simpl. by rewrite length_map.
Qed.

(** X8. For an identifier that no polygon of the collection has,
    [find_neighbors] raises a KeyError; it does not return an empty
    array. *)
Theorem find_neighbors_unknown_identifier {Geom} (libs : geo_libs Geom)
    (config : ConfigParser) (extent_gdf : GeoDataFrame Geom) (id : Z) :
  id ∉ map watprovID extent_gdf →
  find_neighbors id (neighboring_polys libs config extent_gdf)
  = Raise (KeyError (pretty id)).
Proof.
  intros Hid. unfold find_neighbors, rows_labelled.
  rewrite Adjacency.neighboring_polys_values. simpl.
  rewrite Adjacency.zip_map_map.
  by rewrite (Adjacency.no_row_labelled
                (λ p, map (λ q, touches libs (geometry q) (geometry p))
                        extent_gdf)).
Qed.

Lemma find_neighbors_unknown_identifier_witness :
  find_neighbors 7
    (neighboring_polys (Fixture.libs float64) Fixture.config Fixture.polygons)
  = Raise (KeyError "7").
Proof.
  apply (find_neighbors_unknown_identifier (Fixture.libs float64)
           Fixture.config Fixture.polygons 7).
  vm_compute. intros H.
  repeat (apply elem_of_cons in H as [H|H]; [discriminate|]).
  by apply elem_of_nil in H.
Defined.

(** X9. For a polygon of a collection with distinct identifiers,
    [find_neighbors] returns, without repetition, the identifiers of
    exactly those polygons of the collection that touch it; for a
    polygon that none touches it returns the empty array. *)
Theorem find_neighbors_are_the_touching {Geom} (libs : geo_libs Geom)
    (config : ConfigParser) (extent_gdf : GeoDataFrame Geom)
    (p : polygon Geom) :
  NoDup (map watprovID extent_gdf) →
  p ∈ extent_gdf →
  ∃ ns,
    find_neighbors (watprovID p) (neighboring_polys libs config extent_gdf)
    = Ok ns
    ∧ NoDup ns
    ∧ (∀ q, q ∈ extent_gdf →
         watprovID q ∈ ns ↔ touches libs (geometry q) (geometry p) = true)
    ∧ (∀ id, id ∈ ns → id ∈ map watprovID extent_gdf)
    ∧ ((∀ q, q ∈ extent_gdf →
          touches libs (geometry q) (geometry p) = false) → ns = []).
Proof.
  intros Hnd Hp.
  pose proof (Adjacency.find_neighbors_of_polygon libs config extent_gdf p
                Hnd Hp) as Hrun.
  eexists. split; [exact Hrun|]. split_and!.
  - apply (sublist_NoDup _ (map watprovID extent_gdf)); [done|].
    apply (fmap_sublist watprovID), sublist_filter.
  - intros q Hq.
    by apply (Adjacency.neighbour_iff_touches libs config extent_gdf p q).
  - intros id (q & -> & Hq%list_elem_of_filter)%list_elem_of_fmap.
    apply list_elem_of_fmap_2. tauto.
  - intros Hnone.
    assert (filter (λ q, touches libs (geometry q) (geometry p) = true)
              extent_gdf = []) as ->; [|done].
    apply filter_none, Forall_forall. intros q Hq.
    rewrite (Hnone q Hq). done.
Qed.

Lemma find_neighbors_are_the_touching_witness :
  ∃ ns,
    find_neighbors 2
      (neighboring_polys (Fixture.libs float64) Fixture.config
         Fixture.polygons) = Ok ns
    ∧ NoDup ns
    ∧ (1 ∈ ns ↔ Fixture.touches (0, 10) (10, 20) = true).
Proof.
  destruct (find_neighbors_are_the_touching (Fixture.libs float64)
              Fixture.config Fixture.polygons Fixture.P2)
    as (ns & Hrun & Hnd & Hiff & _).
  - apply (bool_decide_unpack _). by vm_compute.
  - right. left.
  - exists ns. split; [exact Hrun|]. split; [exact Hnd|].
    apply (Hiff Fixture.P1). left.
Defined.
End Neighbours.

Module MissingRows.
Import Data.

(** X10. When every row of the array has a missing entry, and also
    when the array has no row, [split_XY_data] returns an empty X and
    an empty Y in quiet mode, and raises a ZeroDivisionError in
    verbose mode, where it divides by the number of rows left. *)
Theorem no_complete_row {Geom} (XY : ndarray Geom) (config : ConfigParser)
    (verbose : bool) :
  (0 < ncols XY)%nat →
  getboolean config "general" "verbose" = Ok verbose →
  Forall (λ r, complete r = false) (rows XY) →
  split_XY_data XY config
  = if verbose then Raise ZeroDivisionError
    else Ok (mk_ndarray (ncols XY - 1) [], []).
Proof.
  intros Hcols Hv Hall. unfold split_XY_data. rewrite Hv. simpl.
  assert (Hdrop : dropna XY = mk_ndarray (ncols XY) []).
  { unfold dropna. f_equal. apply filter_none.
    eapply Forall_impl; [exact Hall|]. simpl. intros r ->. done. }
  rewrite Hdrop. unfold last_column, all_but_last_column. simpl.
  destruct (ncols XY); [lia|]. simpl. by destruct verbose.
Qed.

Lemma no_complete_row_witness :
  split_XY_data
    (mk_ndarray 2 [[Int 1; NaN]; [None_; Bool true]] : ndarray Fixture.interval)
    Fixture.config
  = Ok (mk_ndarray 1 [], []).
Proof.
  apply (no_complete_row
           (mk_ndarray 2 [[Int 1; NaN]; [None_; Bool true]]) Fixture.config
           false).
  - simpl. lia.
  - reflexivity.
  - by repeat constructor.
Defined.

(** X11. A row with a missing entry has no influence on what
    [split_XY_data] returns or raises: the outcome is that for the
    array without the row. *)
Theorem incomplete_row_is_ignored {Geom} (n : nat)
    (before after : list (list (cell Geom))) (r : list (cell Geom))
    (config : ConfigParser) :
  complete r = false →
  split_XY_data (mk_ndarray n (before ++ r :: after)) config
  = split_XY_data (mk_ndarray n (before ++ after)) config.
Proof.
  intros Hr. unfold split_XY_data.
  assert (Hdrop : dropna (mk_ndarray n (before ++ r :: after))
                  = dropna (mk_ndarray n (before ++ after))).
  { unfold dropna. simpl. f_equal. rewrite !filter_app.
    rewrite filter_cons_False; [done|]. by rewrite Hr. }
  by rewrite Hdrop.
Qed.

Lemma incomplete_row_is_ignored_witness :
  split_XY_data Fixture.sample Fixture.config
  = split_XY_data
      (mk_ndarray 4
         [ [Int 1; Geometry (0, 10); Float 2; Bool true];
           [Int 3; Geometry (20, 30); Float 4; Bool false] ])
      Fixture.config.
Proof.
  apply (incomplete_row_is_ignored 4
           [[Int 1; Geometry (0, 10); Float 2; Bool true]]
           [[Int 3; Geometry (20, 30); Float 4; Bool false]]
           [Int 2; Geometry (10, 20); NaN; Bool false] Fixture.config).
  reflexivity.
Defined.
End MissingRows.

(** ** machine_learning.py and pipeline.py: the choice of scaler and model *)

Module Choice.
Import MachineLearning.

(** X12. When the cfg-file names a scaler and has the verbose flag,
    [define_scaling] returns a scaler exactly when the name is one of
    the four supported ones, and then the scaler of that name. *)
Theorem define_scaling_by_name (config : ConfigParser) (name : string)
    (verbose : bool) (sc : scaler) :
  get config "machine_learning" "scaler" = Ok name →
  getboolean config "general" "verbose" = Ok verbose →
  define_scaling config = Ok sc ↔ (name, sc) ∈ scaler_names.
Proof.
  intros Hname Hv. unfold define_scaling. rewrite Hname. simpl. split.
  - repeat (match goal with
            | |- context [if (name =? ?s)%string then _ else _] =>
                destruct (String.eqb_spec name s) as [->|_]
            end;
            [simpl; rewrite Hv; simpl; intros [= <-];
             unfold scaler_names; set_solver|]).
    done.
  - unfold scaler_names. intros Hin.
    repeat (apply elem_of_cons in Hin as [[= -> ->]|Hin];
            [simpl; by rewrite Hv|]).
    by apply elem_of_nil in Hin.
Qed.

Lemma define_scaling_by_name_witness :
  define_scaling Fixture.config = Ok MinMaxScaler
  ↔ ("MinMaxScaler", MinMaxScaler) ∈ scaler_names.
Proof.
  apply (define_scaling_by_name Fixture.config "MinMaxScaler" false);
    reflexivity.
Defined.

(** X13. Likewise [define_model] returns a classifier exactly when
    the name is NuSVC, KNeighborsClassifier or RFClassifier; the last
    name stands for the random forest. *)
Theorem define_model_by_name (config : ConfigParser) (name : string)
    (verbose : bool) (clf : classifier) :
  get config "machine_learning" "model" = Ok name →
  getboolean config "general" "verbose" = Ok verbose →
  define_model config = Ok clf ↔ (name, clf) ∈ model_names.
Proof.
  intros Hname Hv. unfold define_model. rewrite Hname. simpl. split.
  - repeat (match goal with
            | |- context [if (name =? ?s)%string then _ else _] =>
                destruct (String.eqb_spec name s) as [->|_]
            end;
            [simpl; rewrite Hv; simpl; intros [= <-];
             unfold model_names; set_solver|]).
    done.
  - unfold model_names. intros Hin.
    repeat (apply elem_of_cons in Hin as [[= -> ->]|Hin];
            [simpl; by rewrite Hv|]).
    by apply elem_of_nil in Hin.
Qed.

Lemma define_model_by_name_witness :
  define_model Fixture.config = Ok RandomForestClassifier
  ↔ ("RFClassifier", RandomForestClassifier) ∈ model_names.
Proof.
  apply (define_model_by_name Fixture.config "RFClassifier" false);
    reflexivity.
Defined.

(** X14. [prepare_ML] defines the scaler first: with a scaler name
    that is not supported it raises the error of the scaler, whatever
    the cfg-file says about the model. With both names and the
    verbose flag in the cfg-file it returns a pair exactly when both
    names are supported. *)
Theorem prepare_ML_scaler_first (config : ConfigParser) (s : string) :
  get config "machine_learning" "scaler" = Ok s →
  (s ∉ supported_scalers →
     Pipeline.prepare_ML config = Raise (ValueError no_scaler_msg))
  ∧ (∀ m verbose sc clf,
       get config "machine_learning" "model" = Ok m →
       getboolean config "general" "verbose" = Ok verbose →
       Pipeline.prepare_ML config = Ok (sc, clf)
       ↔ (s, sc) ∈ scaler_names ∧ (m, clf) ∈ model_names).
Proof.
  intros Hs. split.
  - intros Hbad. unfold Pipeline.prepare_ML.
    by rewrite (Setup.define_scaling_unsupported config s).
  - intros m verbose sc clf Hm Hv. unfold Pipeline.prepare_ML.
    rewrite <- (define_scaling_by_name config s verbose sc Hs Hv).
    rewrite <- (define_model_by_name config m verbose clf Hm Hv).
    destruct (define_scaling config) as [sc'|e]; simpl.
    + destruct (define_model config) as [clf'|e]; simpl.
      * split; [by intros [= -> ->] | by intros [[= ->] [= ->]]].
      * split; [done | by intros [_ ?]].
    + split; [done | by intros [? _]].
Qed.

Lemma prepare_ML_scaler_first_witness :
  Pipeline.prepare_ML (Fixture.config_of Fixture.unsupported)
  = Raise (ValueError no_scaler_msg)
  ∧ Pipeline.prepare_ML Fixture.config
    = Ok (MinMaxScaler, RandomForestClassifier).
Proof.
  split.
  - apply (prepare_ML_scaler_first (Fixture.config_of Fixture.unsupported)
             "MaxAbsScaler" eq_refl).
    vm_compute. intros H.
    repeat (apply elem_of_cons in H as [H|H]; [discriminate|]).
    by apply elem_of_nil in H.
  - destruct (prepare_ML_scaler_first Fixture.config "MinMaxScaler" eq_refl)
      as [_ Hiff].
    apply (Hiff "RFClassifier" false); [reflexivity | reflexivity |].
    split; [left | do 2 right; left].
Defined.
End Choice.

(** ** machine_learning.py: the scaled rows and the labels of a partition *)

Module ScaledRows.
Import MachineLearning.

Section facts.
Context {Geom : Type}.
Implicit Types (X X_ft X_cs : ndarray Geom).

Lemma split_columns_data X ids geoms data :
  Conflict.split_conflict_geom_data X = Ok (ids, geoms, data) →
  data = mk_ndarray (ncols X - 2) (map (drop 2) (rows X)).
Proof.
  unfold Conflict.split_conflict_geom_data.
  destruct (ncols X <? 2)%nat; [done|]. by intros [= <- <- <-].
Qed.

(** A row of [np.column_stack((X_ID, X_geom, X_ft))] ends with the
    row of [X_ft] that has the same index. *)
Lemma column_stack_row_data X_ID X_geom X_ft X_cs i r :
  MachineLearning.column_stack X_ID X_geom X_ft = Ok X_cs →
  rows X_cs !! i = Some r →
  rows X_ft !! i = Some (drop 2 r).
Proof.
  unfold column_stack. destruct (_ && _); [|done].
  intros [= <-]. simpl. intros Hr.
  by apply lookup_zip_with_Some in Hr as ([id g] & f & -> & _ & Hf).
Qed.
End facts.

(** X15. The scaler is fitted once, on the numeric columns of all
    rows, before the rows are partitioned. The feature rows returned
    for a partition are the rows of the scaled array, and its labels
    the entries of Y, at the indices drawn for that partition; X and
    Y have the same number of rows. *)
Theorem partitions_of_scaled_rows {Geom C}
    (conflict : Data.conflict_py Geom C) (sk : sklearn Geom)
    (X : ndarray Geom) (Y : list Z) (config : ConfigParser)
    (scaler : scaler) (res : split_result Geom) :
  (∀ A, Data.split_conflict_geom_data conflict A
        = Conflict.split_conflict_geom_data A) →
  split_scale_train_test_split conflict sk X Y config scaler = Ok res →
  ∃ X_ft tf train test,
    fit_transform sk scaler
      (mk_ndarray (ncols X - 2) (map (drop 2) (rows X))) = Ok X_ft
    ∧ getfloat config "machine_learning" "train_fraction" = Ok tf
    ∧ shuffle_split sk (len X) (1 - tf)%Q = Ok (train, test)
    ∧ length Y = len X
    ∧ Forall2 (λ i r, rows X_ft !! i = Some r) train (rows (X_train res))
    ∧ Forall2 (λ i r, rows X_ft !! i = Some r) test (rows (X_test res))
    ∧ Forall2 (λ i y, Y !! i = Some y) train (y_train res)
    ∧ Forall2 (λ i y, Y !! i = Some y) test (y_test res).
Proof.
  intros Hsplit Hres.
  destruct (SplitScale.split_scale_steps conflict sk X Y config scaler res Hres)
    as (X_ID & X_geom & X_data & X_ft & X_cs & tf & Xtr & Xte
        & H1 & Hft & Hcs & Htf & Htts & Htr & Hte & _ & _).
  rewrite Hsplit in H1, Htr, Hte.
  pose proof (split_columns_data _ _ _ _ H1) as ->.
  pose proof (split_columns_data _ _ _ _ Htr) as Hdtr.
  pose proof (split_columns_data _ _ _ _ Hte) as Hdte.
  apply CarriedThrough.split_columns in H1 as (_ & HID & _).
  assert (Hlen : len X_cs = len X).
  { rewrite (CarriedThrough.column_stack_len _ _ _ _ Hcs), HID.
    unfold len. by rewrite length_map. }
  exists X_ft, tf.
  unfold train_test_split in Htts.
  destruct (len X_cs =? length Y)%nat eqn:HY; [|done]. simpl in Htts.
  apply Nat.eqb_eq in HY.
  SplitScale.step Htts idx Hidx. destruct idx as [train test].
  SplitScale.step Htts a Ha. SplitScale.step Htts b Hb.
  SplitScale.step Htts c Hc. SplitScale.step Htts d Hd.
  injection Htts as <- <- <- <-.
  apply SplitScale.take_rows_Ok in Ha, Hb, Hc, Hd.
  exists train, test. rewrite <- Hlen.
  split_and!; try done.
  - rewrite Hdtr. simpl. apply Forall2_fmap_r.
    eapply Forall2_impl; [exact Ha|]. simpl. intros i r Hr.
    by apply (column_stack_row_data X_ID X_geom X_ft X_cs).
  - rewrite Hdte. simpl. apply Forall2_fmap_r.
    eapply Forall2_impl; [exact Hb|]. simpl. intros i r Hr.
    by apply (column_stack_row_data X_ID X_geom X_ft X_cs).
Qed.

Lemma partitions_of_scaled_rows_witness :
  ∃ res X_ft tf train test,
    split_scale_train_test_split Fixture.conflict Fixture.sk Fixture.X
      Fixture.Y Fixture.config MinMaxScaler = Ok res
    ∧ fit_transform Fixture.sk MinMaxScaler
        (mk_ndarray (ncols Fixture.X - 2) (map (drop 2) (rows Fixture.X)))
      = Ok X_ft
    ∧ getfloat Fixture.config "machine_learning" "train_fraction" = Ok tf
    ∧ shuffle_split Fixture.sk (len Fixture.X) (1 - tf)%Q = Ok (train, test)
    ∧ length Fixture.Y = len Fixture.X
    ∧ Forall2 (λ i r, rows X_ft !! i = Some r) train (rows (X_train res))
    ∧ Forall2 (λ i r, rows X_ft !! i = Some r) test (rows (X_test res))
    ∧ Forall2 (λ i y, Fixture.Y !! i = Some y) train (y_train res)
    ∧ Forall2 (λ i y, Fixture.Y !! i = Some y) test (y_test res).
Proof.
  eexists.
  destruct (partitions_of_scaled_rows Fixture.conflict Fixture.sk Fixture.X
              Fixture.Y Fixture.config MinMaxScaler _ (λ A, eq_refl) eq_refl)
    as (X_ft & tf & train & test & H).
  exists X_ft, tf, train, test. split; [reflexivity | exact H].
Defined.
End ScaledRows.

(** ** pipeline.py: what create_XY and create_X do to the files *)

Module Persistence.
Import Pipeline.

(** X16. [create_XY] and [create_X] never write a file: in the branch
    that would save the assembled array the call of [fill_XY] lacks
    its argument [out_dir] and raises before [np.save] is reached, and
    the other branch only loads. *)
Theorem files_are_never_written {Geom C}
    (conflict : Data.conflict_py Geom C)
    (variables : Data.variables_py Geom) (libs : Data.geo_libs Geom)
    (config : ConfigParser) (out_dir root_dir : string)
    (polygon_gdf : Data.GeoDataFrame Geom) (conflict_gdf : C)
    (w : world Geom) :
  files (create_XY conflict variables libs config out_dir root_dir
           polygon_gdf conflict_gdf w).2 = files w
  ∧ files (create_X conflict variables libs config out_dir root_dir
             polygon_gdf conflict_gdf w).2 = files w.
Proof.
  unfold create_XY, create_X, io_bind, lift, np_load. split.
  - destruct (get config "pre_calc" "XY") as [pre|e]; [|done].
    destruct (pre =? "")%string.
    + by destruct (Data.initiate_XY_data config).
    + simpl. by destruct (files w !! _).
  - destruct (get config "pre_calc" "XY") as [pre|e]; [|done].
    destruct (pre =? "")%string.
    + by destruct (Data.initiate_X_data config).
    + by destruct (get config "pre_calc" "X").
Qed.



(** X18. With an empty entry XY of the section pre_calc, and a
    configuration that has the section data and the flag verbose,
    [create_XY] and [create_X] both stop with the TypeError of the
    call of [fill_XY] that lacks out_dir; nothing has been loaded or
    saved by then. *)
Theorem assembling_branch_raises_TypeError {Geom C}
    (conflict : Data.conflict_py Geom C)
    (variables : Data.variables_py Geom) (libs : Data.geo_libs Geom)
    (config : ConfigParser) (out_dir root_dir : string)
    (polygon_gdf : Data.GeoDataFrame Geom) (conflict_gdf : C)
    (w : world Geom) (vars : list (string * string)) (verbose : bool) :
  get config "pre_calc" "XY" = Ok "" →
  items config "data" = Ok vars →
  getboolean config "general" "verbose" = Ok verbose →
  let e := TypeError "fill_XY() missing 1 required positional argument: 'out_dir'" in
  create_XY conflict variables libs config out_dir root_dir polygon_gdf
    conflict_gdf w = (Raise e, w)
  ∧ create_X conflict variables libs config out_dir root_dir polygon_gdf
      conflict_gdf w = (Raise e, w).
Proof.
  intros Hpre Hitems Hverbose e. split.
  - eapply Reuse.create_XY_assembly_raises; [done|].
    unfold Data.initiate_XY_data. by rewrite Hitems, Hverbose.
  - eapply Reuse.create_X_assembly_raises; [done|].
    unfold Data.initiate_X_data. by rewrite Hitems, Hverbose.
Qed.

Lemma assembling_branch_raises_TypeError_witness :
  let e := TypeError "fill_XY() missing 1 required positional argument: 'out_dir'" in
  create_XY Fixture.conflict Fixture.variables (Fixture.libs Data.float64)
    Fixture.config "out" "root" Fixture.polygons Fixture.events Fixture.disk
  = (Raise e, Fixture.disk)
  ∧ create_X Fixture.conflict Fixture.variables (Fixture.libs Data.float64)
      Fixture.config "out" "root" Fixture.polygons Fixture.events
      Fixture.disk
    = (Raise e, Fixture.disk).
Proof.
  apply (assembling_branch_raises_TypeError Fixture.conflict
           Fixture.variables (Fixture.libs Data.float64) Fixture.config
           "out" "root" Fixture.polygons Fixture.events Fixture.disk
           [("rainfall", "rainfall.nc,mean")] false);
    reflexivity.
Defined.

(** X19. With an entry XY that names a file which is there,
    [create_XY] returns what [split_XY_data] makes of the array in
    that file, whatever the polygons, the conflicts and the variables
    are; the one access to the files is the load. *)
Theorem create_XY_splits_the_loaded_array {Geom C}
    (conflict : Data.conflict_py Geom C)
    (variables : Data.variables_py Geom) (libs : Data.geo_libs Geom)
    (config : ConfigParser) (out_dir root_dir : string)
    (polygon_gdf : Data.GeoDataFrame Geom) (conflict_gdf : C)
    (w : world Geom) (pre : string) (XY : ndarray Geom) :
  get config "pre_calc" "XY" = Ok pre →
  pre ≠ "" →
  files w !! os_path_join root_dir [pre] = Some XY →
  create_XY conflict variables libs config out_dir root_dir polygon_gdf
    conflict_gdf w
  = (Data.split_XY_data XY config,
     mk_world (files w) (log w ++ [NpLoad (os_path_join root_dir [pre])])).
Proof.
  intros Hpre Hne%String.eqb_neq Hfile.
  unfold create_XY, io_bind, lift, np_load.
  by rewrite Hpre, Hne, Hfile.
Qed.

Lemma create_XY_splits_the_loaded_array_witness :
  create_XY Fixture.conflict Fixture.variables (Fixture.libs Data.float64)
    (Fixture.config_of Fixture.reuse) "out" "root" Fixture.polygons
    Fixture.events (Fixture.disk_XY Fixture.sample)
  = (Data.split_XY_data Fixture.sample (Fixture.config_of Fixture.reuse),
     mk_world (files (Fixture.disk_XY Fixture.sample)) [NpLoad "root/XY.npy"]).
Proof.
  apply (create_XY_splits_the_loaded_array Fixture.conflict
           Fixture.variables (Fixture.libs Data.float64)
           (Fixture.config_of Fixture.reuse) "out" "root" Fixture.polygons
           Fixture.events (Fixture.disk_XY Fixture.sample) "XY.npy"
           Fixture.sample);
    [reflexivity | discriminate | reflexivity].
Defined.
End Persistence.

(** ** evaluation.py: the rows of the frame of average hits *)

Module HitRate.
Import Evaluation.

Section facts.
Context {Geom : Type}.
Implicit Types (df : list test_row) (global_df : list (Z * Geom)).

Lemma hits_bounds df id :
  Forall (λ r, overall_hit r = 0 ∨ overall_hit r = 1) df →
  0 ≤ hits id df ≤ Z.of_nat (appearances id df).
Proof.
  unfold hits, appearances. induction 1 as [|r df Hr _ IH]; [done|].
  rewrite filter_cons. destruct (decide (ID r = id)); simpl; lia.
Qed.

Lemma divide_bounds (t : Z) (n : nat) :
  0 ≤ t ≤ Z.of_nat (S n) → (0 <= divide t (S n) <= 1)%Q.
Proof.
  intros Ht. unfold divide, Qle, Qdiv, Qmult, Qinv, inject_Z.
  simpl in *. lia.
Qed.

Lemma merge_left_length global_df id n t :
  length (merge_left global_df (id, (n, t)))
  = Nat.max 1 (length (filter (λ g, fst g = id) global_df)).
Proof.
  unfold merge_left. destruct (filter _ global_df) as [|g gs]; [done|].
  by rewrite length_map.
Qed.

Lemma merge_left_filter global_df id id' n t :
  filter (λ row, hit_ID row = id) (merge_left global_df (id', (n, t)))
  = if decide (id' = id) then merge_left global_df (id', (n, t)) else [].
Proof.
  destruct (decide (id' = id)) as [->|Hne].
  - apply filter_all, Forall_forall. intros row Hrow.
    by apply AverageHit.merge_left_rows in Hrow as (? & _).
  - apply filter_none, Forall_forall. intros row Hrow.
    apply AverageHit.merge_left_rows in Hrow as (Hid & _). congruence.
Qed.

(** The rows of one identifier, over a frame with distinct keys. *)
Lemma rows_of_ID global_df (l : list (Z * (nat * Z))) id :
  NoDup (map fst l) →
  (id ∉ map fst l →
     filter (λ row, hit_ID row = id) (flat_map (merge_left global_df) l) = [])
  ∧ (∀ nt, (id, nt) ∈ l →
       filter (λ row, hit_ID row = id) (flat_map (merge_left global_df) l)
       = merge_left global_df (id, nt)).
Proof.
  induction l as [|[id' [n t]] l IH]; intros Hnd.
  - split; [done|]. intros nt H. by apply elem_of_nil in H.
  - cbn [flat_map]. change (NoDup (id' :: map fst l)) in Hnd.
    change (map fst ((id', (n, t)) :: l)) with (id' :: map fst l).
    apply NoDup_cons in Hnd as [Hfresh Hnd].
    destruct (IH Hnd) as [IH0 IH1].
    rewrite filter_app, merge_left_filter. split.
    + intros Hnot. rewrite not_elem_of_cons in Hnot.
      destruct Hnot as [Hne Hnot].
      destruct (decide (id' = id)); [congruence|]. by apply IH0.
    + intros nt Hin. apply elem_of_cons in Hin as [Heq|Hin].
      * injection Heq as <- <-.
        destruct (decide (id = id)); [|done].
        rewrite IH0; [by rewrite app_nil_r|done].
      * destruct (decide (id' = id)) as [->|_].
        -- exfalso. apply Hfresh.
           apply list_elem_of_fmap. by exists (id, nt).
        -- by apply IH1.
Qed.

Lemma merge_left_geometry global_df id n t row :
  row ∈ merge_left global_df (id, (n, t)) →
  match geometry row with
  | Some g => (id, g) ∈ global_df
  | None => id ∉ map fst global_df
  end.
Proof.
  unfold merge_left.
  destruct (filter _ global_df) as [|g0 gs] eqn:Hf.
  - intros ->%list_elem_of_singleton. simpl.
    intros ([id' g] & Hid & Hin)%list_elem_of_fmap. simpl in Hid. subst id'.
    assert (Hg : (id, g) ∈ filter (λ g, fst g = id) global_df)
      by (by apply list_elem_of_filter).
    rewrite Hf in Hg. by apply elem_of_nil in Hg.
  - intros ([id' g] & -> & Hin)%list_elem_of_fmap. simpl.
    rewrite <- Hf in Hin. apply list_elem_of_filter in Hin as [Hid Hin].
    simpl in Hid. by subst id'.
Qed.
End facts.

(** X20. When every test row is marked 0 or 1 as overall hit, the
    average hit of every row of the frame lies between 0 and 1. *)
Theorem average_hit_is_a_rate {Geom} (df : list test_row)
    (global_df : list (Z * Geom)) :
  Forall (λ r, overall_hit r = 0 ∨ overall_hit r = 1) df →
  Forall (λ row, (0 <= average_hit row <= 1)%Q)
         (get_average_hit df global_df).1.
Proof.
  intros Hdf. apply Forall_forall.
  intros row (n & Hn & Hrow)%AverageHit.df_hit_rows.
  apply AverageHit.merge_left_rows in Hrow as (_ & _ & _ & ->).
  apply divide_bounds. rewrite <- Hn. by apply hits_bounds.
Qed.

Lemma average_hit_is_a_rate_witness :
  Forall (λ row, (0 <= average_hit row <= 1)%Q)
         (get_average_hit Fixture.test_rows Fixture.global_df).1.
Proof.
  apply (average_hit_is_a_rate Fixture.test_rows Fixture.global_df).
  repeat constructor; simpl; lia.
Defined.

(** X21. The left merge with [global_df] gives an identifier that
    appears in the test rows one row of the frame for each row that
    [global_df] has for it, and one row when [global_df] has none; an
    identifier that does not appear has no row. *)
Theorem rows_per_identifier {Geom} (df : list test_row)
    (global_df : list (Z * Geom)) (id : Z) :
  length (filter (λ row, hit_ID row = id) (get_average_hit df global_df).1)
  = match appearances id df with
    | O => 0%nat
    | S _ => Nat.max 1 (length (filter (λ g, fst g = id) global_df))
    end.
Proof.
  unfold get_average_hit. simpl.
  set (m := merge_on_ID (value_counts df) (groupby_sum df)).
  destruct (rows_of_ID global_df (map_to_list m) id) as [H0 H1].
  { apply NoDup_fst_map_to_list. }
  pose proof (AverageHit.df_temp_lookup df id) as Hm. fold m in Hm.
  destruct (appearances id df) as [|n].
  - rewrite H0; [done|].
    intros ([id' nt] & Hid & Hin)%list_elem_of_fmap. simpl in Hid. subst id'.
    apply elem_of_map_to_list in Hin. congruence.
  - rewrite (H1 (S n, hits id df)); [apply merge_left_length|].
    by apply elem_of_map_to_list.
Qed.

(** X22. The geometry of a row of the frame is the geometry of a row
    of [global_df] with the same identifier; it is missing only when
    [global_df] has no row for the identifier. *)
Theorem geometry_comes_from_global_df {Geom} (df : list test_row)
    (global_df : list (Z * Geom)) (row : hit_row Geom) :
  row ∈ (get_average_hit df global_df).1 →
  match geometry row with
  | Some g => (hit_ID row, g) ∈ global_df
  | None => hit_ID row ∉ map fst global_df
  end.
Proof.
  intros (n & _ & Hrow)%AverageHit.df_hit_rows.
  by apply merge_left_geometry in Hrow.
Qed.

Lemma geometry_comes_from_global_df_witness :
  (2, (10, 20)%Z) ∈ Fixture.global_df.
Proof.
  apply (geometry_comes_from_global_df Fixture.test_rows Fixture.global_df
           (mk_hit_row 2 1 1 1%Q (Some (10, 20)))).
  vm_compute. left.
Defined.
End HitRate.
